(** * Modular-Discord-Bot: the plugin lifecycle of [core/plugin.py]

    A shallow embedding of the [Plugin] class (construction, file
    resolution, download, load / unload / reload, enable / disable,
    requirement discovery) and the properties its specification states.

    Python values are modelled as follows.
    - [str]: [string], the bytes of its UTF-8 encoding (the functions used
      here, [replace], [startswith], [endswith] and [splitlines], find in
      the encoding what they find in the text); [bytes]: [string].
    - [int]: [Z].
    - [dict[str, str]]: an association list in insertion order, written
      only through [dict_set], which keeps one entry per key.
    - an exception: a constructor of [exception]; a function that can raise
      returns an [outcome].
    - [self], the database session and everything outside the process (the
      host bot's extension registry, the disk, the network): explicit
      state, threaded through the monad [M].  The outside world is a
      parameter (class [Collaborators]): the theorems hold for every
      behaviour of the host, disk and network. *)

From Stdlib Require Import List String Ascii ZArith Bool Arith Lia Permutation.
Import ListNotations.
Open Scope string_scope.

(** ** Python strings *)

(** [s.startswith(p)] *)
Fixpoint startswith (p s : string) : bool :=
  match p, s with
  | EmptyString, _ => true
  | String a p', String b s' => Ascii.eqb a b && startswith p' s'
  | String _ _, EmptyString => false
  end.

(** The scan of [str.replace]: occurrences of [old] are found left to
    right and do not overlap; [skip] counts the characters of a matched
    occurrence that are still to be dropped. *)
Fixpoint replace_from (old new : string) (skip : nat) (s : string) : string :=
  match s with
  | EmptyString => EmptyString
  | String c s' =>
      match skip with
      | S k => replace_from old new k s'
      | O =>
          if startswith old s
          then new ++ replace_from old new (String.length old - 1) s'
          else String c (replace_from old new 0 s')
      end
  end.

(** [new.join(s)] framed by [new]: what [s.replace("", new)] returns. *)
Fixpoint interleave (new s : string) : string :=
  match s with
  | EmptyString => new
  | String c s' => new ++ String c (interleave new s')
  end.

(** [s.replace(old, new)] *)
Definition replace (old new s : string) : string :=
  match old with
  | EmptyString => interleave new s
  | String _ _ => replace_from old new 0 s
  end.

(** Character-wise image of a string. *)
Fixpoint map_chars (f : ascii -> ascii) (s : string) : string :=
  match s with
  | EmptyString => EmptyString
  | String c s' => String (f c) (map_chars f s')
  end.

(** [c in s] for a character [c]. *)
Fixpoint has_char (c : ascii) (s : string) : bool :=
  match s with
  | EmptyString => false
  | String b s' => Ascii.eqb b c || has_char c s'
  end.

(** [old in s] for a substring [old]. *)
Fixpoint occurs_in (old s : string) : bool :=
  match s with
  | EmptyString => startswith old EmptyString
  | String _ s' => startswith old s || occurs_in old s'
  end.

(** The line boundaries of [str.splitlines], as they stand in the UTF-8
    encoding of a text: the single bytes LF, VT, FF, CR, FS, GS and RS,
    the pair CR LF, and the encodings of U+0085 (NEL), U+2028 (LINE
    SEPARATOR) and U+2029 (PARAGRAPH SEPARATOR). *)
Definition is_single_boundary (c : ascii) : bool :=
  match nat_of_ascii c with
  | 10 | 11 | 12 | 13 | 28 | 29 | 30 => true
  | _ => false
  end.

Definition CRLF : string :=
  String (ascii_of_nat 13) (String (ascii_of_nat 10) EmptyString).

Definition NEL : string :=
  String (ascii_of_nat 194) (String (ascii_of_nat 133) EmptyString).

Definition LINE_SEPARATOR : string :=
  String (ascii_of_nat 226)
    (String (ascii_of_nat 128) (String (ascii_of_nat 168) EmptyString)).

Definition PARAGRAPH_SEPARATOR : string :=
  String (ascii_of_nat 226)
    (String (ascii_of_nat 128) (String (ascii_of_nat 169) EmptyString)).

(** The number of bytes of the line boundary [s] starts with, 0 when it
    starts with none. *)
Definition boundary (s : string) : nat :=
  match s with
  | EmptyString => 0
  | String c _ =>
      if is_single_boundary c then (if startswith CRLF s then 2 else 1)
      else if startswith NEL s then 2
      else if startswith LINE_SEPARATOR s || startswith PARAGRAPH_SEPARATOR s then 3
      else 0
  end.

(** [splitlines]: [line] is the line being read and [skip] counts the
    bytes of a boundary still to be passed.  A boundary closes the current
    line; the text after the last boundary is a line only when it is not
    empty. *)
Fixpoint splitlines_from (line : string) (skip : nat) (s : string) : list string :=
  match s with
  | EmptyString =>
      match line with
      | EmptyString => []
      | String _ _ => [line]
      end
  | String c s' =>
      match skip with
      | S k => splitlines_from line k s'
      | O =>
          match boundary s with
          | O => splitlines_from (line ++ String c EmptyString) 0 s'
          | S n => line :: splitlines_from EmptyString n s'
          end
      end
  end.

(** [s.splitlines()] *)
Definition splitlines (s : string) : list string :=
  splitlines_from EmptyString 0 s.

(** [posixpath.dirname]: the part of [p] up to its last slash, trailing
    slashes removed unless it consists of slashes only. *)
Fixpoint upto_last_slash (p : string) : option string :=
  match p with
  | EmptyString => None
  | String c p' =>
      match upto_last_slash p' with
      | Some h => Some (String c h)
      | None => if Ascii.eqb c "/" then Some (String c EmptyString) else None
      end
  end.

Fixpoint rstrip_slashes (s : string) : string :=
  match s with
  | EmptyString => EmptyString
  | String c s' =>
      match rstrip_slashes s' with
      | EmptyString => if Ascii.eqb c "/" then EmptyString else String c EmptyString
      | r => String c r
      end
  end.

Definition dirname (p : string) : string :=
  match upto_last_slash p with
  | None => EmptyString
  | Some head =>
      match rstrip_slashes head with
      | EmptyString => head
      | stripped => stripped
      end
  end.

(** ** Exceptions *)

(** The exception classes the plugin subsystem meets: the extension errors
    of the host (discord.ext.commands.errors), the builtin [OSError] family
    of the disk, and the connection error of the HTTP client, which is
    [requests.exceptions.ConnectionError]: a [RequestException], itself an
    [IOError] (an alias of [OSError]), and no subclass of the builtin
    [ConnectionError]. *)
Inductive exception : Type :=
  | ExtensionFailed
  | ExtensionNotFound
  | ExtensionNotLoaded
  | ExtensionAlreadyLoaded
  | NoEntryPointError
  | OSError
  | FileNotFoundError
  | FileExistsError
  | IsADirectoryError
  | ConnectionError
  | ConnectionRefusedError
  | requests_ConnectionError.

Definition exception_eqb (a b : exception) : bool :=
  match a, b with
  | ExtensionFailed, ExtensionFailed
  | ExtensionNotFound, ExtensionNotFound
  | ExtensionNotLoaded, ExtensionNotLoaded
  | ExtensionAlreadyLoaded, ExtensionAlreadyLoaded
  | NoEntryPointError, NoEntryPointError
  | OSError, OSError
  | FileNotFoundError, FileNotFoundError
  | FileExistsError, FileExistsError
  | IsADirectoryError, IsADirectoryError
  | ConnectionError, ConnectionError
  | ConnectionRefusedError, ConnectionRefusedError
  | requests_ConnectionError, requests_ConnectionError => true
  | _, _ => false
  end.

(** The base classes of a class, nearest first, among the modelled ones. *)
Definition bases (e : exception) : list exception :=
  match e with
  | FileNotFoundError | FileExistsError | IsADirectoryError => [OSError]
  | ConnectionError => [OSError]
  | ConnectionRefusedError => [ConnectionError; OSError]
  | requests_ConnectionError => [OSError]
  | _ => []
  end.

(** [issubclass(e, c)] *)
Definition issubclass (e c : exception) : bool :=
  exception_eqb e c || existsb (exception_eqb c) (bases e).

(** An [except (c1, ..., cn)] clause catches [e]. *)
Definition caught_by (classes : list exception) (e : exception) : bool :=
  existsb (issubclass e) classes.

Inductive outcome (A : Type) : Type :=
  | Return (a : A)
  | Raise (e : exception).
Arguments Return {A} a.
Arguments Raise {A} e.
Arguments caught_by : simpl never.

(** ** Persisted records (models/plugins.py, by the fields the class reads) *)

Module PluginData.
Record t : Type := mk {
  id : Z;
  name : string;
  version : string;
  description : string;
  author : string;
  folder_name : string;
  enabled : bool
}.
End PluginData.

Module PluginFiles.
Record t : Type := mk {
  plugin_id : Z;
  file : string;
  file_url : string
}.
End PluginFiles.

(** The two tables behind [bot.database]. *)
Record Database : Type := mkDatabase {
  plugin_data : list PluginData.t;
  plugin_files : list PluginFiles.t
}.

(** ** Dictionaries *)

Definition dict : Type := list (string * string).

(** [d[k] = v]: a known key keeps its place and takes the new value, a new
    key goes last. *)
Fixpoint dict_set (k v : string) (d : dict) : dict :=
  match d with
  | [] => [(k, v)]
  | (k', v') :: d' =>
      if String.eqb k k' then (k', v) :: d' else (k', v') :: dict_set k v d'
  end.

Definition keys (d : dict) : list string := map fst d.

(** ** The plugin object *)

Record Plugin : Type := mkPlugin {
  version : string;
  name : string;
  description : string;
  author : string;
  folder_name : string;
  enabled : bool;
  id : Z;
  files : dict;
  empty : bool;
  local : bool;
  non_local_files : list (string * string);
  local_files : list string
}.

Definition with_enabled (b : bool) (p : Plugin) : Plugin :=
  mkPlugin (version p) (name p) (description p) (author p) (folder_name p)
    b (id p) (files p) (empty p) (local p) (non_local_files p) (local_files p).

Definition with_files (d : dict) (p : Plugin) : Plugin :=
  mkPlugin (version p) (name p) (description p) (author p) (folder_name p)
    (enabled p) (id p) d (empty p) (local p) (non_local_files p) (local_files p).

Definition with_empty (b : bool) (p : Plugin) : Plugin :=
  mkPlugin (version p) (name p) (description p) (author p) (folder_name p)
    (enabled p) (id p) (files p) b (local p) (non_local_files p) (local_files p).

Definition with_resolution (r : bool * list (string * string) * list string)
    (p : Plugin) : Plugin :=
  let '(l, nlf, lf) := r in
  mkPlugin (version p) (name p) (description p) (author p) (folder_name p)
    (enabled p) (id p) (files p) (empty p) l nlf lf.

Definition with_local_files (lf : list string) (p : Plugin) : Plugin :=
  mkPlugin (version p) (name p) (description p) (author p) (folder_name p)
    (enabled p) (id p) (files p) (empty p) (local p) (non_local_files p) lf.

(** [generate_safe_path]: the module identifier of a plugin file. *)
Definition generate_safe_path (self : Plugin) (path : string) : string :=
  "plugins." ++ folder_name self ++ "." ++
  replace "/" "." (replace "." "_" (replace "-" "_" (replace " " "_"
    (replace ".py" "" path)))).

(** f"plugins/{self.folder_name}/{file}" *)
Definition plugin_path (self : Plugin) (file : string) : string :=
  "plugins/" ++ folder_name self ++ "/" ++ file.

(** f"plugins/{self.folder_name}" *)
Definition plugin_folder (self : Plugin) : string :=
  "plugins/" ++ folder_name self.

(** ** The outside world *)

(** A call that leaves the plugin object: to the host bot, the HTTP client
    or the disk.  The calls are logged in the order they are made. *)
Inductive event : Type :=
  | Load_extension (module : string)
  | Unload_extension (module : string)
  | Reload_extension (module : string)
  | Requests_get (url : string)
  | Os_mkdir (path : string)
  | Os_makedirs (path : string)
  | Write_binary (path content : string).

(** What the plugin asks of its collaborators.  A call takes the world to
    a new world and either returns or raises. *)
Class Collaborators (world : Type) : Type := {
  (* bot.load_extension, bot.unload_extension, bot.reload_extension *)
  load_extension : string -> world -> world * option exception;
  unload_extension : string -> world -> world * option exception;
  reload_extension : string -> world -> world * option exception;
  (* os.path.exists, os.mkdir, os.makedirs(..., exist_ok=True) *)
  os_path_exists : string -> world -> bool;
  os_mkdir : string -> world -> world * option exception;
  os_makedirs : string -> world -> world * option exception;
  (* open(path, "wb") then write; open(path, "r") then read *)
  write_binary : string -> string -> world -> world * option exception;
  read_text : string -> world -> outcome string;
  (* requests.get(url).content *)
  requests_get : string -> world -> world * outcome string
}.

(** ** State and control flow *)

(** What a plugin reaches through [self.bot] and the process around it:
    the database session, the outside world and the log of calls made to
    the outside world. *)
Record Bot (world : Type) : Type := mkBot {
  database : Database;
  outside : world;
  calls : list event
}.
Arguments mkBot {world} _ _ _.
Arguments database {world} _.
Arguments outside {world} _.
Arguments calls {world} _.

Record State (world : Type) : Type := mkState {
  self : Plugin;
  bot : Bot world
}.
Arguments mkState {world} _ _.
Arguments self {world} _.
Arguments bot {world} _.

(** A method body: it reads and writes the state and returns or raises. *)
Definition M (world A : Type) : Type := State world -> outcome A * State world.

Section Lifecycle.
Context {world : Type} `{Collaborators world}.

Definition ret {A : Type} (a : A) : M world A := fun st => (Return a, st).

Definition bind {A B : Type} (m : M world A) (k : A -> M world B) : M world B :=
  fun st =>
    match m st with
    | (Return a, st') => k a st'
    | (Raise e, st') => (Raise e, st')
    end.

Notation "x <- m ;; k" := (bind m (fun x => k))
  (at level 61, m at next level, right associativity).
Notation "m ;; k" := (bind m (fun _ => k))
  (at level 61, right associativity).

(** [try: body except classes as e: handler e] *)
Definition try_except {A : Type} (body : M world A) (classes : list exception)
    (handler : exception -> M world A) : M world A :=
  fun st =>
    match body st with
    | (Return a, st') => (Return a, st')
    | (Raise e, st') =>
        if caught_by classes e then handler e st' else (Raise e, st')
    end.

Definition get_self : M world Plugin := fun st => (Return (self st), st).

Definition update_self (f : Plugin -> Plugin) : M world unit :=
  fun st => (Return tt, mkState (f (self st)) (bot st)).

Definition update_database (f : Database -> Database) : M world unit :=
  fun st =>
    (Return tt,
     mkState (self st)
       (mkBot (f (database (bot st))) (outside (bot st)) (calls (bot st)))).

(** A call to the outside that returns nothing: it is logged, changes the
    world and may raise. *)
Definition call (op : world -> world * option exception) (ev : event) : M world unit :=
  fun st =>
    let (w, r) := op (outside (bot st)) in
    let st' := mkState (self st)
                 (mkBot (database (bot st)) w (calls (bot st) ++ [ev])%list) in
    match r with
    | None => (Return tt, st')
    | Some e => (Raise e, st')
    end.

(** A call to the outside that returns a value. *)
Definition call_value {A : Type} (op : world -> world * outcome A) (ev : event) : M world A :=
  fun st =>
    let (w, r) := op (outside (bot st)) in
    (r, mkState (self st) (mkBot (database (bot st)) w (calls (bot st) ++ [ev])%list)).

(** A query that leaves the world as it is ([os.path.exists]). *)
Definition ask {A : Type} (q : world -> A) : M world A :=
  fun st => (Return (q (outside (bot st))), st).

(** [for x in xs: body], where the body may leave the function with a
    value ([Some v]: [return v]) or go on ([None]). *)
Fixpoint for_in {A R : Type} (xs : list A) (body : A -> M world (option R))
    : M world (option R) :=
  match xs with
  | [] => ret None
  | x :: xs' =>
      r <- body x ;;
      match r with
      | Some v => ret (Some v)
      | None => for_in xs' body
      end
  end.

(** [for x in xs: body], with no [return] in the body. *)
Fixpoint for_each {A : Type} (xs : list A) (body : A -> M world unit) : M world unit :=
  match xs with
  | [] => ret tt
  | x :: xs' => body x ;; for_each xs' body
  end.

(** ** The methods of [Plugin] *)

(** [_get_files]: the rows of this plugin, as a dictionary from file to
    URL. *)
Definition _get_files (plugin_id : Z) (db : Database) : dict :=
  fold_left (fun d row => dict_set (PluginFiles.file row) (PluginFiles.file_url row) d)
    (filter (fun row => Z.eqb (PluginFiles.plugin_id row) plugin_id) (plugin_files db))
    [].

(** [_exists_localy]: [(local, non_local_files, local_files)].  The loop
    runs over the entries of [self.files] in insertion order; [link] is the
    value stored under [file]. *)
Definition _exists_localy (self : Plugin) (w : world)
    : bool * list (string * string) * list string :=
  fold_left
    (fun (acc : bool * list (string * string) * list string) (entry : string * string) =>
       let '(local, non_local_files, local_files) := acc in
       let (file, link) := entry in
       if negb (os_path_exists (plugin_path self file) w)
       then (false, (non_local_files ++ [(file, link)])%list, local_files)
       else (local, non_local_files, (local_files ++ [file])%list))
    (files self) (true, [], []).

(** The body of the loop of [_download]: fetch, make the folders, write
    the file, append the path to [self.local_files]. *)
Definition download_one (s : Plugin) (entry : string * string) : M world unit :=
  let (file, link) := entry in
  content <- call_value (requests_get link) (Requests_get link) ;;
  call (os_makedirs (dirname (plugin_path s file)))
       (Os_makedirs (dirname (plugin_path s file))) ;;
  call (write_binary (plugin_path s file) content)
       (Write_binary (plugin_path s file) content) ;;
  update_self (fun p => with_local_files (local_files p ++ [file])%list p).

(** [_download]: one [try] around the whole loop; the only handler is
    [except ConnectionError], the builtin class. *)
Definition _download : M world unit :=
  try_except
    (s <- get_self ;;
     for_each (non_local_files s) (download_one s))
    [ConnectionError]
    (fun _ => ret tt).

(** The classes of the [except] clause of [load], and of [reload]. *)
Definition load_handlers : list exception :=
  [ExtensionFailed; ExtensionNotFound; ExtensionNotLoaded; NoEntryPointError].

(** The classes of the [except] clause of [unload]. *)
Definition unload_handlers : list exception :=
  [ExtensionNotFound; ExtensionNotLoaded].

(** The body of the loop of [load]: one [try] per file, whose handler
    leaves [load] with [False]. *)
Definition load_one (pythonpath : string) : M world (option bool) :=
  try_except
    (call (load_extension pythonpath) (Load_extension pythonpath) ;;
     ret None)
    load_handlers
    (fun _ => update_self (with_enabled false) ;; ret (Some false)).

(** [load] *)
Definition load : M world bool :=
  s <- get_self ;;
  if enabled s then
    r <- for_in (map (generate_safe_path s) (local_files s)) load_one ;;
    match r with
    | Some b => ret b
    | None => ret true
    end
  else ret false.

(** [unload] *)
Definition unload : M world bool :=
  try_except
    (s <- get_self ;;
     for_each (map (generate_safe_path s) (local_files s)) (fun pythonpath =>
       call (unload_extension pythonpath) (Unload_extension pythonpath)) ;;
     ret true)
    unload_handlers
    (fun _ => update_self (with_enabled false) ;; ret false).

(** [reload] *)
Definition reload : M world bool :=
  try_except
    (s <- get_self ;;
     for_each (map (generate_safe_path s) (local_files s)) (fun pythonpath =>
       call (reload_extension pythonpath) (Reload_extension pythonpath)) ;;
     ret true)
    load_handlers
    (fun _ => update_self (with_enabled false) ;; ret false).

(** [query(PluginData).filter_by(id=...).update({PluginData.enabled: b})],
    as the session sees the table once the statement went through.  A
    failure of the statement itself, and the commit (which the code never
    issues), are outside the model. *)
Definition update_enabled (plugin_id : Z) (b : bool) (db : Database) : Database :=
  mkDatabase
    (map (fun row =>
            if Z.eqb (PluginData.id row) plugin_id
            then PluginData.mk (PluginData.id row) (PluginData.name row)
                   (PluginData.version row) (PluginData.description row)
                   (PluginData.author row) (PluginData.folder_name row) b
            else row)
       (plugin_data db))
    (plugin_files db).

(** [enable] *)
Definition enable : M world unit :=
  update_self (with_enabled true) ;;
  s <- get_self ;;
  update_database (update_enabled (id s) true).

(** [disable] *)
Definition disable : M world unit :=
  update_self (with_enabled false) ;;
  s <- get_self ;;
  update_database (update_enabled (id s) false).

(** [get_requirements] *)
Definition get_requirements : M world (list string) :=
  s <- get_self ;;
  present <- ask (os_path_exists (plugin_folder s ++ "/requirements.txt")) ;;
  if (present : bool) then
    text <- (fun st => (read_text (plugin_folder s ++ "/requirements.txt")
                          (outside (bot st)), st)) ;;
    ret (splitlines text)
  else ret [].

(** The object [__init__] starts from: the fields copied from the record;
    the fields assigned later are set before they are read. *)
Definition fresh (plugin_data : PluginData.t) : Plugin :=
  mkPlugin (PluginData.version plugin_data) (PluginData.name plugin_data)
    (PluginData.description plugin_data) (PluginData.author plugin_data)
    (PluginData.folder_name plugin_data) (PluginData.enabled plugin_data)
    (PluginData.id plugin_data) [] false false [] [].

(** [__init__], first step: the plugin folder is created when it does not
    exist. *)
Definition ensure_folder : M world unit :=
  s <- get_self ;;
  present <- ask (os_path_exists (plugin_folder s)) ;;
  if negb present
  then call (os_mkdir (plugin_folder s)) (Os_mkdir (plugin_folder s))
  else ret tt.

(** [__init__], second step: [files], [empty], the resolution against the
    disk, and the flag forced off for a plugin without files. *)
Definition resolved (db : Database) (w : world) (p : Plugin) : Plugin :=
  let p1 := with_files (_get_files (id p) db) p in
  let p2 := with_empty (Nat.eqb (List.length (files p1)) 0) p1 in
  let p3 := with_resolution (_exists_localy p2 w) p2 in
  if empty p3 then with_enabled false p3 else p3.

Definition resolve : M world unit :=
  fun st =>
    update_self (resolved (database (bot st)) (outside (bot st))) st.

(** Whether [__init__] downloads:
    [not self.local and not self.empty and not self.enabled]. *)
Definition wants_download (p : Plugin) : bool :=
  negb (local p) && negb (empty p) && negb (enabled p).

(** The body of [__init__], on the object under construction. *)
Definition init_body : M world unit :=
  ensure_folder ;;
  resolve ;;
  s <- get_self ;;
  if wants_download s then _download else ret tt.

(** [Plugin(plugin_data, bot)]: the constructed object, or the exception
    that left the constructor. *)
Definition __init__ (plugin_data : PluginData.t) (b : Bot world)
    : outcome Plugin * Bot world :=
  match init_body (mkState (fresh plugin_data) b) with
  | (Return _, st) => (Return (self st), bot st)
  | (Raise e, st) => (Raise e, bot st)
  end.

(** ** Sequences of operations *)

Inductive operation : Type :=
  | Enable | Disable | Load | Unload | Reload.

(** One exposed operation, its result dropped: what is left is the state
    and whether an exception came out. *)
Definition run (op : operation) : M world unit :=
  match op with
  | Enable => enable
  | Disable => disable
  | Load => load ;; ret tt
  | Unload => unload ;; ret tt
  | Reload => reload ;; ret tt
  end.

(** The state after a caller ran the operations one after the other,
    going on after an operation that raised. *)
Definition run_all (ops : list operation) (st : State world) : State world :=
  fold_left (fun st op => snd (run op st)) ops st.

(** The host answers of a run of calls: the world after the first call
    that raised, with its exception, or after the last call. *)
Fixpoint host_run (op : string -> world -> world * option exception)
    (modules : list string) (w : world) : world * option exception :=
  match modules with
  | [] => (w, None)
  | m :: rest =>
      match op m w with
      | (w', None) => host_run op rest w'
      | (w', Some e) => (w', Some e)
      end
  end.

(** The modules such a run calls the host with: up to and with the first
    one that raised. *)
Fixpoint attempted (op : string -> world -> world * option exception)
    (modules : list string) (w : world) : list string :=
  match modules with
  | [] => []
  | m :: rest =>
      m :: match op m w with
           | (w', None) => attempted op rest w'
           | (_, Some _) => []
           end
  end.

(** The state a method leaves when all it did was call the outside. *)
Definition after_calls (st : State world) (w : world) (evs : list event) : State world :=
  mkState (self st) (mkBot (database (bot st)) w (calls (bot st) ++ evs)%list).

(** Whether the file of an entry of [files] is on the disk, as
    [_exists_localy] asks. *)
Definition on_disk (p : Plugin) (w : world) (entry : string * string) : bool :=
  os_path_exists (plugin_path p (fst entry)) w.

(** The same state with the plugin's flag cleared ([self.enabled = False]). *)
Definition switched_off (st : State world) : State world :=
  mkState (with_enabled false (self st)) (bot st).

(** The module identifiers of the plugin's local files, in order. *)
Definition module_paths (p : Plugin) : list string :=
  map (generate_safe_path p) (local_files p).

End Lifecycle.

(** ** The specification's words, as definitions to compare with *)

(** The separator mapping the specification describes: space, hyphen and
    dot become the underscore, the path separator becomes the dot. *)
Definition safe_char (c : ascii) : ascii :=
  if Ascii.eqb c " " then "_"%char
  else if Ascii.eqb c "-" then "_"%char
  else if Ascii.eqb c "." then "_"%char
  else if Ascii.eqb c "/" then "."%char
  else c.

(** [s] without its suffix [suffix], or [s] itself when it does not end
    with it. *)
Fixpoint strip_suffix (suffix s : string) : string :=
  match s with
  | EmptyString => EmptyString
  | String c s' => if String.eqb s suffix then EmptyString else String c (strip_suffix suffix s')
  end.

(** The translation as the specification words it: strip the [.py]
    suffix, normalise the separators, prefix the plugin's namespace. *)
Definition spec_module_identifier (folder path : string) : string :=
  "plugins." ++ folder ++ "." ++ map_chars safe_char (strip_suffix ".py" path).

(** A file stem with none of the characters the translation merges into
    the underscore. *)
Definition plain_stem (s : string) : bool :=
  negb (has_char " " s) && negb (has_char "-" s) && negb (has_char "." s).

(** The non-empty lines of a text, in order. *)
Definition nonempty_lines (text : string) : list string :=
  filter (fun l => negb (String.eqb l "")) (splitlines text).

(** The partition the specification states of a plugin: every key of
    [files] is in exactly one of [local_files] and the paths of
    [non_local_files]. *)
Definition covers (p : Plugin) : Prop :=
  forall f, In f (keys (files p)) <->
            In f (local_files p) \/ In f (map fst (non_local_files p)).

Definition disjoint (p : Plugin) : Prop :=
  forall f, In f (local_files p) -> ~ In f (map fst (non_local_files p)).

Definition partitioned (p : Plugin) : Prop :=
  covers p /\ disjoint p /\
  NoDup (local_files p) /\ NoDup (map fst (non_local_files p)).

(** What the code keeps instead: [local_files] is what was found on the
    disk ([found]) followed by what was downloaded ([fetched]), the paths
    of [non_local_files] are [fetched] followed by what is still missing
    ([missing]), and the three lists together hold every key of [files]
    once. *)
Definition laid_out (p : Plugin) (found fetched missing : list string) : Prop :=
  local_files p = (found ++ fetched)%list /\
  map fst (non_local_files p) = (fetched ++ missing)%list /\
  NoDup (found ++ fetched ++ missing)%list /\
  forall f, In f (keys (files p)) <-> In f (found ++ fetched ++ missing)%list.

(** ** A test double of the outside world

    An in-memory host, disk and web, used to run the methods on concrete
    inputs.  The host follows discord.py's extension registry: loading a
    name that is already registered raises [ExtensionAlreadyLoaded], an
    unknown module raises [ExtensionNotFound], a module whose import or
    setup fails raises what [modules] says. *)

Module Mock.

Inductive node : Type :=
  | Dir
  | File (content : string).

Record world : Type := mk {
  extensions : list string;
  modules : list (string * option exception);
  disk : list (string * node);
  web : list (string * string)
}.

Fixpoint lookup {A : Type} (k : string) (l : list (string * A)) : option A :=
  match l with
  | [] => None
  | (k', v) :: l' => if String.eqb k k' then Some v else lookup k l'
  end.

Fixpoint store {A : Type} (k : string) (v : A) (l : list (string * A)) : list (string * A) :=
  match l with
  | [] => [(k, v)]
  | (k', v') :: l' => if String.eqb k k' then (k, v) :: l' else (k', v') :: store k v l'
  end.

Definition registered (m : string) (w : world) : bool :=
  existsb (String.eqb m) (extensions w).

Definition load_extension (m : string) (w : world) : world * option exception :=
  if registered m w then (w, Some ExtensionAlreadyLoaded)
  else match lookup m (modules w) with
       | None => (w, Some ExtensionNotFound)
       | Some (Some e) => (w, Some e)
       | Some None => (mk (extensions w ++ [m]) (modules w) (disk w) (web w), None)
       end.

Definition unload_extension (m : string) (w : world) : world * option exception :=
  if registered m w
  then (mk (filter (fun x => negb (String.eqb m x)) (extensions w))
          (modules w) (disk w) (web w), None)
  else (w, Some ExtensionNotLoaded).

Definition reload_extension (m : string) (w : world) : world * option exception :=
  if registered m w
  then match lookup m (modules w) with
       | None => (w, Some ExtensionNotFound)
       | Some (Some e) => (w, Some e)
       | Some None => (w, None)
       end
  else (w, Some ExtensionNotLoaded).

Definition os_path_exists (p : string) (w : world) : bool :=
  match lookup p (disk w) with
  | Some _ => true
  | None => false
  end.

Definition is_dir (p : string) (w : world) : bool :=
  match lookup p (disk w) with
  | Some Dir => true
  | _ => false
  end.

Definition with_disk (d : list (string * node)) (w : world) : world :=
  mk (extensions w) (modules w) d (web w).

Definition os_mkdir (p : string) (w : world) : world * option exception :=
  if os_path_exists p w then (w, Some FileExistsError)
  else if negb (String.eqb (dirname p) "") && negb (is_dir (dirname p) w)
       then (w, Some FileNotFoundError)
       else (with_disk (store p Dir (disk w)) w, None).

(** The directories [os.makedirs] visits, outermost first. *)
Fixpoint ancestors (fuel : nat) (p : string) : list string :=
  match fuel with
  | O => []
  | S fuel' =>
      if String.eqb p "" then [] else (ancestors fuel' (dirname p) ++ [p])%list
  end.

Fixpoint make_all (dirs : list string) (w : world) : world * option exception :=
  match dirs with
  | [] => (w, None)
  | d :: rest =>
      match lookup d (disk w) with
      | Some (File _) => (w, Some FileExistsError)
      | Some Dir => make_all rest w
      | None => make_all rest (with_disk (store d Dir (disk w)) w)
      end
  end.

Definition os_makedirs (p : string) (w : world) : world * option exception :=
  if String.eqb p "" then (w, Some FileNotFoundError)
  else make_all (ancestors (S (String.length p)) p) w.

Definition write_binary (p content : string) (w : world) : world * option exception :=
  if is_dir p w then (w, Some IsADirectoryError)
  else if negb (String.eqb (dirname p) "") && negb (is_dir (dirname p) w)
       then (w, Some FileNotFoundError)
       else (with_disk (store p (File content) (disk w)) w, None).

Definition read_text (p : string) (w : world) : outcome string :=
  match lookup p (disk w) with
  | Some (File content) => Return content
  | Some Dir => Raise IsADirectoryError
  | None => Raise FileNotFoundError
  end.

(** A URL the web does not serve is a host that cannot be reached: the
    HTTP client raises its connection error. *)
Definition requests_get (url : string) (w : world) : world * outcome string :=
  match lookup url (web w) with
  | Some body => (w, Return body)
  | None => (w, Raise requests_ConnectionError)
  end.

End Mock.

#[global] Instance mock_collaborators : Collaborators Mock.world :=
  Build_Collaborators Mock.world
    Mock.load_extension Mock.unload_extension Mock.reload_extension
    Mock.os_path_exists Mock.os_mkdir Mock.os_makedirs
    Mock.write_binary Mock.read_text Mock.requests_get.

(** ** Concrete plugins *)

Definition LF : string := String (ascii_of_nat 10) EmptyString.

(** The record of the plugin [demo], enabled or not. *)
Definition demo_record (enabled : bool) : PluginData.t :=
  PluginData.mk 1 "demo" "1.0" "a demonstration plugin" "nobody" "demo" enabled.

(** Three declared files. *)
Definition demo_rows : list PluginFiles.t :=
  [ PluginFiles.mk 1 "a.py" "http://files.example/a.py";
    PluginFiles.mk 1 "b.py" "http://down.example/b.py";
    PluginFiles.mk 1 "c.py" "http://files.example/c.py" ].

Definition demo_database (enabled : bool) (rows : list PluginFiles.t) : Database :=
  mkDatabase [demo_record enabled] rows.

(** A disk that holds the plugin folder and the given files of it. *)
Definition demo_disk (present : list (string * string)) : list (string * Mock.node) :=
  List.app [("plugins", Mock.Dir); ("plugins/demo", Mock.Dir)]
    (map (fun e => ("plugins/demo/" ++ fst e, Mock.File (snd e))) present).

(** The three modules of [demo] import and set up without error. *)
Definition demo_modules : list (string * option exception) :=
  [ ("plugins.demo.a", None); ("plugins.demo.b", None); ("plugins.demo.c", None) ].

(** The web serves [a.py] and [c.py]; [down.example] cannot be reached. *)
Definition demo_web : list (string * string) :=
  [ ("http://files.example/a.py", "def setup(bot): pass");
    ("http://files.example/c.py", "def setup(bot): pass") ].

Definition demo_bot (enabled : bool) (rows : list PluginFiles.t)
    (registered : list string) (present : list (string * string)) : Bot Mock.world :=
  mkBot (demo_database enabled rows)
    (Mock.mk registered demo_modules (demo_disk present) demo_web) [].

(** The plugin of the specification's example: folder [myplug]. *)
Definition myplug : Plugin :=
  mkPlugin "1.0" "myplug" "" "nobody" "myplug" true 2
    [("sub dir/mod-a.py", "http://files.example/mod-a.py")] false true []
    ["sub dir/mod-a.py"].

(** A requirements file with a blank line between its two specifiers. *)
Definition requirements_text : string :=
  "requests" ++ LF ++ LF ++ "numpy" ++ LF.

(** The plugin [demo] with the given flag and local files, as an object. *)
Definition demo_plugin (enabled : bool) (local_files : list string) : Plugin :=
  mkPlugin "1.0" "demo" "a demonstration plugin" "nobody" "demo" enabled 1
    (map (fun f => (f, "http://files.example/" ++ f)) local_files)
    (Nat.eqb (List.length local_files) 0) true [] local_files.

(** An enabled [demo] with three local files, of which the host already
    has the second registered (a plugin loaded before, or a module loaded
    by hand with the bot's [load] command). *)
Definition second_already_loaded : State Mock.world :=
  mkState (demo_plugin true ["a.py"; "b.py"; "c.py"])
    (demo_bot true demo_rows ["plugins.demo.b"] []).

(** An enabled [demo] with one local file, nothing loaded yet. *)
Definition one_file : State Mock.world :=
  mkState (demo_plugin true ["a.py"])
    (demo_bot true (firstn 1 demo_rows) [] [("a.py", "def setup(bot): pass")]).

(** A disabled [demo] with two local files, both loaded in the host. *)
Definition disabled_but_loaded : State Mock.world :=
  mkState (demo_plugin false ["a.py"; "b.py"])
    (demo_bot false (firstn 2 demo_rows) ["plugins.demo.a"; "plugins.demo.b"] []).

(** The bot a disabled [demo] with three declared files is constructed
    in: the folder exists and is empty. *)
Definition nothing_local : Bot Mock.world := demo_bot false demo_rows [] [].

(** The same plugin after the resolution step, about to download. *)
Definition about_to_download : State Mock.world :=
  mkState
    (resolved (database nothing_local) (outside nothing_local)
       (fresh (demo_record false)))
    nothing_local.

(** The bot a disabled [demo] with one declared, missing file is
    constructed in; the web serves the file. *)
Definition one_missing : Bot Mock.world :=
  demo_bot false (firstn 1 demo_rows) [] [].

(** The plugin that construction returns: the file was downloaded. *)
Definition downloaded_demo : Plugin :=
  mkPlugin "1.0" "demo" "a demonstration plugin" "nobody" "demo" false 1
    [("a.py", "http://files.example/a.py")] false false
    [("a.py", "http://files.example/a.py")] ["a.py"].

(** The bot an enabled [demo] without declared files is constructed in. *)
Definition no_rows : Bot Mock.world := demo_bot true [] [] [].

(** The plugin that construction returns. *)
Definition empty_demo : Plugin :=
  mkPlugin "1.0" "demo" "a demonstration plugin" "nobody" "demo" false 1
    [] true true [] [].

(** [demo] with a requirements file of the given text. *)
Definition with_requirements (text : string) : State Mock.world :=
  mkState (demo_plugin true [])
    (demo_bot true [] [] [("requirements.txt", text)]).

(** ** Texts made of lines *)

(** A text whose lines are [ls], each ended by a line feed. *)
Fixpoint unlines (ls : list string) : string :=
  match ls with
  | [] => EmptyString
  | l :: ls' => l ++ LF ++ unlines ls'
  end.

(** No line boundary starts anywhere in [s]. *)
Fixpoint no_boundary (s : string) : bool :=
  match s with
  | EmptyString => true
  | String _ s' => Nat.eqb (boundary s) 0 && no_boundary s'
  end.

(** ** Dictionary lookup and the rows behind [_get_files] *)

(** [d[k]]; [None] stands for [KeyError]. *)
Fixpoint dict_get (k : string) (d : dict) : option string :=
  match d with
  | [] => None
  | (k', v) :: d' => if String.eqb k k' then Some v else dict_get k d'
  end.

(** The URL of the last row of a plugin for a file, if it has one. *)
Definition last_url (plugin_id : Z) (f : string) (rows : list PluginFiles.t)
    : option string :=
  fold_left
    (fun acc row =>
       if Z.eqb (PluginFiles.plugin_id row) plugin_id
          && String.eqb f (PluginFiles.file row)
       then Some (PluginFiles.file_url row)
       else acc)
    rows None.

(** ** A download batch in which nothing raises *)

Section Batch.
Context {world : Type} `{Collaborators world}.

(** The answers of the web and the disk to a batch that goes through:
    the world after it and the calls made, or [None] when a call raises.
    Each file is written with the content its URL returned. *)
Fixpoint fetch_all (s : Plugin) (entries : list (string * string)) (w : world)
    : option (world * list event) :=
  match entries with
  | [] => Some (w, [])
  | (file, link) :: rest =>
      match requests_get link w with
      | (w1, Return content) =>
          match os_makedirs (dirname (plugin_path s file)) w1 with
          | (w2, None) =>
              match write_binary (plugin_path s file) content w2 with
              | (w3, None) =>
                  match fetch_all s rest w3 with
                  | Some (w', evs) =>
                      Some (w',
                            Requests_get link
                            :: Os_makedirs (dirname (plugin_path s file))
                            :: Write_binary (plugin_path s file) content
                            :: evs)
                  | None => None
                  end
              | (_, Some _) => None
              end
          | (_, Some _) => None
          end
      | (_, Raise _) => None
      end
  end.

End Batch.

(** ** The extension commands of [main.py] *)

(** [s.endswith(suffix)] *)
Fixpoint endswith (suffix s : string) : bool :=
  match s with
  | EmptyString => String.eqb suffix EmptyString
  | String _ s' => String.eqb s suffix || endswith suffix s'
  end.

(** [default_extensions], from the listing of the [extensions] folder. *)
Definition default_extensions (listing : list string) : list string :=
  map (fun i => "extensions." ++ replace ".py" "" i)
    (filter (endswith ".py") listing).

(** [all_extensions] of the [reload-all] command, from the same listing. *)
Definition all_extensions (listing : list string) : list string :=
  map (fun i => replace ".py" "" i) (filter (endswith ".py") listing).

(** A [discord.Embed] as the commands build it: colour, description, and
    the author line set by [set_author]. *)
Record Embed : Type := mkEmbed {
  color : Z;
  embed_description : string;
  author_name : string;
  icon_url : string
}.

Definition green : Z := 0x00FF00.
Definition red : Z := 0xFF0000.

Section OwnerCommands.
Context {world : Type} `{Collaborators world}.

(** [icon] is [bot.user.avatar_url.__str__()].  A command is modelled up
    to its last statement, [await ctx.send(embed=embed)]: it returns the
    embed it sends, or raises what left the [try]. *)

(** The [reload] command. *)
Definition command_reload_extension (icon extension : string) (w : world)
    : outcome Embed * world :=
  match reload_extension extension w with
  | (w', None) =>
      (Return (mkEmbed green (extension ++ " reloaded") "Reload" icon), w')
  | (w', Some e) =>
      if caught_by [ExtensionNotFound] e
      then (Return (mkEmbed red (extension ++ " not found") "Reload" icon), w')
      else (Raise e, w')
  end.

(** The [load] command. *)
Definition command_load_extension (icon extension : string) (w : world)
    : outcome Embed * world :=
  match load_extension extension w with
  | (w', None) =>
      (Return (mkEmbed green (extension ++ " loaded") "Load" icon), w')
  | (w', Some e) =>
      if caught_by [ExtensionAlreadyLoaded] e
      then (Return (mkEmbed red (extension ++ " already loaded") "Load" icon), w')
      else if caught_by [ExtensionNotFound] e
      then (Return (mkEmbed red (extension ++ " not found") "Load" icon), w')
      else (Raise e, w')
  end.

(** The [unload] command. *)
Definition command_unload_extension (icon extension : string) (w : world)
    : outcome Embed * world :=
  match unload_extension extension w with
  | (w', None) =>
      (Return (mkEmbed green (extension ++ " unloaded") "Unload" icon), w')
  | (w', Some e) =>
      if caught_by [ExtensionNotFound] e
      then (Return (mkEmbed red (extension ++ " not found") "Unload" icon), w')
      else if caught_by [ExtensionNotLoaded] e
      then (Return (mkEmbed red (extension ++ " exists, but is not loaded")
                      "Unload" icon), w')
      else (Raise e, w')
  end.

(** The loop of the [reload-all] command.  [failed] is the pair of
    variables [ok] and [embed], which the handler sets together: [None]
    while [ok] is true, the embed of the last extension not found once it
    is false. *)
Fixpoint reload_all_loop (icon : string) (extensions : list string)
    (failed : option Embed) (w : world) : outcome (option Embed) * world :=
  match extensions with
  | [] => (Return failed, w)
  | extension :: rest =>
      match reload_extension extension w with
      | (w', None) => reload_all_loop icon rest failed w'
      | (w', Some e) =>
          if caught_by [ExtensionNotFound] e
          then reload_all_loop icon rest
                 (Some (mkEmbed red (extension ++ " not found") "Reload All" icon)) w'
          else (Raise e, w')
      end
  end.

(** The [reload-all] command, on the listing of the [extensions] folder. *)
Definition command_reload_all_extensions (icon : string) (listing : list string)
    (w : world) : outcome Embed * world :=
  match reload_all_loop icon (all_extensions listing) None w with
  | (Return None, w') =>
      (Return (mkEmbed green "All extensions reloaded" "Reload All" icon), w')
  | (Return (Some embed), w') => (Return embed, w')
  | (Raise e, w') => (Raise e, w')
  end.

(** The world after the calls of a loop that goes on after a handled
    failure, as [reload-all] does, and the first exception it does not
    handle. *)
Fixpoint host_sweep (op : string -> world -> world * option exception)
    (classes : list exception) (modules : list string) (w : world)
    : world * option exception :=
  match modules with
  | [] => (w, None)
  | m :: rest =>
      match op m w with
      | (w', None) => host_sweep op classes rest w'
      | (w', Some e) =>
          if caught_by classes e then host_sweep op classes rest w'
          else (w', Some e)
      end
  end.

End OwnerCommands.

(** ** More concrete plugins *)

(** A web whose hosts refuse the connection at socket level: the call
    raises the builtin [ConnectionRefusedError]. *)
Definition refusing_get (url : string) (w : Mock.world)
    : Mock.world * outcome string :=
  match Mock.lookup url (Mock.web w) with
  | Some body => (w, Return body)
  | None => (w, Raise ConnectionRefusedError)
  end.

Definition refusing_collaborators : Collaborators Mock.world :=
  Build_Collaborators Mock.world
    Mock.load_extension Mock.unload_extension Mock.reload_extension
    Mock.os_path_exists Mock.os_mkdir Mock.os_makedirs
    Mock.write_binary Mock.read_text refusing_get.

(** An enabled [demo] with three local files whose second module has no
    [setup] function. *)
Definition second_has_no_setup : State Mock.world :=
  mkState (demo_plugin true ["a.py"; "b.py"; "c.py"])
    (mkBot (demo_database true demo_rows)
       (Mock.mk []
          [ ("plugins.demo.a", None); ("plugins.demo.b", Some NoEntryPointError);
            ("plugins.demo.c", None) ]
          (demo_disk []) demo_web)
       []).

(** A [demo] with two local files of which only the first is loaded. *)
Definition first_loaded_only : State Mock.world :=
  mkState (demo_plugin true ["a.py"; "b.py"])
    (demo_bot true (firstn 2 demo_rows) ["plugins.demo.a"] []).

(** The bot an enabled [demo] with three declared files is constructed
    in: the folder exists and holds [a.py] only. *)
Definition enabled_one_local : Bot Mock.world :=
  demo_bot true demo_rows [] [("a.py", "def setup(bot): pass")].

(** A bot on a disk without the [plugins] folder. *)
Definition no_plugins_folder : Bot Mock.world :=
  mkBot (demo_database true demo_rows) (Mock.mk [] demo_modules [] demo_web) [].

(** The bot a disabled [demo] is constructed in when both its declared
    files are missing and served by the web. *)
Definition two_missing : Bot Mock.world :=
  demo_bot false
    [ PluginFiles.mk 1 "a.py" "http://files.example/a.py";
      PluginFiles.mk 1 "lib/c.py" "http://files.example/c.py" ] [] [].

(** The same plugin after the resolution step. *)
Definition two_to_download : State Mock.world :=
  mkState
    (resolved (database two_missing) (outside two_missing)
       (fresh (demo_record false)))
    two_missing.

(** * Properties *)

(** ** Control flow *)

Section ControlFlow.
Context {world : Type} `{Collaborators world}.

Lemma state_eta (st : State world) :
  mkState (self st)
    (mkBot (database (bot st)) (outside (bot st)) (calls (bot st))) = st.
Proof. destruct st as [s [d w c]]; reflexivity. Qed.

Lemma after_calls_nil (st : State world) :
  after_calls st (outside (bot st)) [] = st.
Proof. unfold after_calls. rewrite app_nil_r. apply state_eta. Qed.

Lemma after_calls_after (st : State world) w evs w' evs' :
  after_calls (after_calls st w evs) w' evs' = after_calls st w' (evs ++ evs').
Proof. unfold after_calls; simpl. now rewrite app_assoc. Qed.

Lemma call_run (op : world -> world * option exception) ev (st : State world) :
  call op ev st =
  (match snd (op (outside (bot st))) with
   | None => Return tt
   | Some e => Raise e
   end,
   after_calls st (fst (op (outside (bot st)))) [ev]).
Proof.
  unfold call, after_calls.
  destruct (op (outside (bot st))) as [w [e|]]; reflexivity.
Qed.

(** Every call of a run that did not raise was made. *)
Lemma attempted_all op modules (w w' : world) :
  host_run op modules w = (w', None) -> attempted op modules w = modules.
Proof.
  revert w. induction modules as [|m rest IH]; intros w Hrun; simpl in *.
  - reflexivity.
  - destruct (op m w) as [w1 [e|]]; [discriminate|].
    f_equal. now apply IH.
Qed.

(** A run whose first failure is at [f], after [pre]. *)
Lemma host_run_first_failure op pre f post (w w1 w2 : world) e :
  host_run op pre w = (w1, None) ->
  op f w1 = (w2, Some e) ->
  host_run op (pre ++ f :: post) w = (w2, Some e) /\
  attempted op (pre ++ f :: post) w = (pre ++ [f])%list.
Proof.
  revert w. induction pre as [|m rest IH]; intros w Hpre Hf; simpl in *.
  - injection Hpre as ->. rewrite Hf. auto.
  - destruct (op m w) as [w' [e'|]]; [discriminate|].
    destruct (IH w' Hpre Hf) as [-> ->]. auto.
Qed.

(** A loop of host calls, in terms of the host's answers. *)
Lemma for_each_host op ev modules (st : State world) :
  for_each modules (fun m => call (op m) (ev m)) st =
  (match snd (host_run op modules (outside (bot st))) with
   | None => Return tt
   | Some e => Raise e
   end,
   after_calls st (fst (host_run op modules (outside (bot st))))
     (map ev (attempted op modules (outside (bot st))))).
Proof.
  revert st. induction modules as [|m rest IH]; intros st; simpl.
  - unfold ret. now rewrite after_calls_nil.
  - unfold bind at 1. rewrite call_run.
    destruct (op m (outside (bot st))) as [w [e|]] eqn:E; simpl.
    + reflexivity.
    + rewrite IH. simpl. now rewrite after_calls_after.
Qed.

Lemma for_each_app {A : Type} (xs ys : list A) (body : A -> M world unit) st :
  for_each (xs ++ ys) body st =
  bind (for_each xs body) (fun _ => for_each ys body) st.
Proof.
  revert st. induction xs as [|x xs IH]; intros st; simpl.
  - reflexivity.
  - unfold bind.
    destruct (body x st) as [[[]|e] st1]; [|reflexivity].
    rewrite IH. reflexivity.
Qed.

End ControlFlow.

(** ** Load, unload and reload in terms of the host's answers *)

Section HostOperations.
Context {world : Type} `{Collaborators world}.

Lemma for_in_load modules (st : State world) :
  for_in modules load_one st =
  match host_run load_extension modules (outside (bot st)) with
  | (w, None) => (Return None, after_calls st w (map Load_extension modules))
  | (w, Some e) =>
      let st' := after_calls st w
                   (map Load_extension
                      (attempted load_extension modules (outside (bot st)))) in
      if caught_by load_handlers e
      then (Return (Some false), switched_off st')
      else (Raise e, st')
  end.
Proof.
  revert st. induction modules as [|m rest IH]; intros st; simpl.
  - unfold ret. now rewrite after_calls_nil.
  - unfold bind at 1. unfold load_one, try_except, bind at 1. rewrite call_run.
    destruct (load_extension m (outside (bot st))) as [w [e|]] eqn:E; cbn [fst snd].
    + destruct (caught_by load_handlers e); reflexivity.
    + unfold ret at 1. rewrite IH. cbn [after_calls outside bot].
      destruct (host_run load_extension rest w) as [w' [e|]]; cbn zeta.
      * fold (after_calls st w [Load_extension m]).
        destruct (caught_by load_handlers e);
          now rewrite after_calls_after.
      * fold (after_calls st w [Load_extension m]).
        now rewrite after_calls_after.
Qed.

(** [load], for every answer of the host. *)
Lemma load_spec (st : State world) :
  load st =
  if enabled (self st) then
    match host_run load_extension (module_paths (self st)) (outside (bot st)) with
    | (w, None) =>
        (Return true, after_calls st w (map Load_extension (module_paths (self st))))
    | (w, Some e) =>
        let st' := after_calls st w
                     (map Load_extension
                        (attempted load_extension (module_paths (self st))
                           (outside (bot st)))) in
        if caught_by load_handlers e
        then (Return false, switched_off st')
        else (Raise e, st')
    end
  else (Return false, st).
Proof.
  unfold load, bind at 1, get_self.
  destruct (enabled (self st)); [|reflexivity].
  unfold bind. fold (module_paths (self st)). rewrite for_in_load.
  destruct (host_run load_extension (module_paths (self st)) (outside (bot st)))
    as [w [e|]]; simpl; [|reflexivity].
  destruct (caught_by load_handlers e); reflexivity.
Qed.

(** A loop of host calls under one [try] whose handler clears the flag
    and answers [False]: the shape of [unload] and [reload]. *)
Lemma guarded_loop_spec op ev classes (st : State world) :
  try_except
    (bind get_self (fun s =>
       bind (for_each (map (generate_safe_path s) (local_files s))
               (fun pythonpath => call (op pythonpath) (ev pythonpath)))
            (fun _ => ret true)))
    classes
    (fun _ => bind (update_self (with_enabled false)) (fun _ => ret false)) st =
  match host_run op (module_paths (self st)) (outside (bot st)) with
  | (w, None) => (Return true, after_calls st w (map ev (module_paths (self st))))
  | (w, Some e) =>
      let st' := after_calls st w
                   (map ev (attempted op (module_paths (self st)) (outside (bot st)))) in
      if caught_by classes e
      then (Return false, switched_off st')
      else (Raise e, st')
  end.
Proof.
  unfold try_except, bind, get_self.
  fold (module_paths (self st)). rewrite for_each_host.
  destruct (host_run op (module_paths (self st)) (outside (bot st)))
    as [w [e|]] eqn:E; simpl.
  - destruct (caught_by classes e); reflexivity.
  - unfold ret. now rewrite (attempted_all _ _ _ _ E).
Qed.

Lemma unload_spec (st : State world) :
  unload st =
  match host_run unload_extension (module_paths (self st)) (outside (bot st)) with
  | (w, None) =>
      (Return true, after_calls st w (map Unload_extension (module_paths (self st))))
  | (w, Some e) =>
      let st' := after_calls st w
                   (map Unload_extension
                      (attempted unload_extension (module_paths (self st))
                         (outside (bot st)))) in
      if caught_by unload_handlers e
      then (Return false, switched_off st')
      else (Raise e, st')
  end.
Proof. apply guarded_loop_spec. Qed.

Lemma reload_spec (st : State world) :
  reload st =
  match host_run reload_extension (module_paths (self st)) (outside (bot st)) with
  | (w, None) =>
      (Return true, after_calls st w (map Reload_extension (module_paths (self st))))
  | (w, Some e) =>
      let st' := after_calls st w
                   (map Reload_extension
                      (attempted reload_extension (module_paths (self st))
                         (outside (bot st)))) in
      if caught_by load_handlers e
      then (Return false, switched_off st')
      else (Raise e, st')
  end.
Proof. apply guarded_loop_spec. Qed.

End HostOperations.

(** ** Claims about load, unload and reload *)

Section HostClaims.
Context {world : Type} `{Collaborators world}.

Lemma module_paths_app (p : Plugin) pre f post :
  local_files p = (pre ++ f :: post)%list ->
  module_paths p =
  (map (generate_safe_path p) pre ++
   generate_safe_path p f :: map (generate_safe_path p) post)%list.
Proof. unfold module_paths. intros ->. now rewrite map_app. Qed.

(** [load] when every file loads: the host is called once per local file,
    in order, and the answer is [True]. *)
Lemma load_all_succeed (st : State world) w :
  enabled (self st) = true ->
  host_run load_extension (module_paths (self st)) (outside (bot st)) = (w, None) ->
  load st = (Return true, after_calls st w (map Load_extension (module_paths (self st)))).
Proof. intros He Hrun. now rewrite load_spec, He, Hrun. Qed.

(** [load] when the host first fails at the k-th file, k = length pre + 1,
    with an exception [e]: the host was called k times, nothing is
    unloaded again, and what comes out depends on whether the [except]
    clause of [load] names the class of [e]. *)
Lemma load_first_failure (st : State world) pre f post w1 w2 e :
  enabled (self st) = true ->
  local_files (self st) = (pre ++ f :: post)%list ->
  host_run load_extension (map (generate_safe_path (self st)) pre)
    (outside (bot st)) = (w1, None) ->
  load_extension (generate_safe_path (self st) f) w1 = (w2, Some e) ->
  let st' := after_calls st w2
               (map Load_extension
                  (map (generate_safe_path (self st)) (pre ++ [f]))) in
  load st =
  if caught_by load_handlers e
  then (Return false, switched_off st')
  else (Raise e, st').
Proof.
  intros He Hfiles Hpre Hf. rewrite load_spec, He.
  rewrite (module_paths_app _ _ _ _ Hfiles).
  destruct (host_run_first_failure _ _ _
              (map (generate_safe_path (self st)) post) _ _ _ _ Hpre Hf)
    as [-> ->].
  cbn zeta. rewrite (map_app (generate_safe_path (self st)) pre [f]).
  reflexivity.
Qed.

(** C1 -- [load] on an enabled plugin whose k-th file (k = length pre + 1)
    the host refuses as already loaded, the earlier ones having loaded:
    the host was called k times and the first k-1 files stay loaded, but
    [ExtensionAlreadyLoaded] is not among the classes [load] handles, so
    the exception leaves [load], no boolean is returned and [enabled] is
    still true. *)
Theorem load_already_loaded_escapes (st : State world) pre f post w1 w2 :
  enabled (self st) = true ->
  local_files (self st) = (pre ++ f :: post)%list ->
  host_run load_extension (map (generate_safe_path (self st)) pre)
    (outside (bot st)) = (w1, None) ->
  load_extension (generate_safe_path (self st) f) w1 = (w2, Some ExtensionAlreadyLoaded) ->
  load st =
  (Raise ExtensionAlreadyLoaded,
   after_calls st w2
     (map Load_extension (map (generate_safe_path (self st)) (pre ++ [f])))) /\
  enabled (self (snd (load st))) = true /\
  List.length (calls (bot (snd (load st)))) =
  (List.length (calls (bot st)) + (List.length pre + 1))%nat.
Proof.
  intros He Hfiles Hpre Hf.
  pose proof (load_first_failure st pre f post w1 w2 _ He Hfiles Hpre Hf) as L.
  cbn zeta in L.
  change (caught_by load_handlers ExtensionAlreadyLoaded) with false in L.
  cbv iota in L. rewrite L. cbn [snd after_calls self bot calls].
  split; [reflexivity|split; [exact He|]].
  rewrite length_app, !length_map, length_app. reflexivity.
Qed.

(** C6 -- [load] on a disabled plugin answers [False] and leaves the whole
    state as it was: the plugin object, the database, the outside world
    and the log of calls (no host interaction). *)
Theorem load_disabled_is_inert (st : State world) :
  enabled (self st) = false ->
  load st = (Return false, st).
Proof. intros Hd. now rewrite load_spec, Hd. Qed.

Lemma module_paths_with_enabled b (p : Plugin) :
  module_paths (with_enabled b p) = module_paths p.
Proof. reflexivity. Qed.

(** C10 -- [unload] and [reload] never read [enabled]: whatever the flag,
    they call the host once per local file, in the order of
    [local_files], and answer [True] when no call raises; with the flag
    set the other way they make the same calls and give the same
    answer. *)
Theorem unload_reload_ignore_enabled (st : State world) :
  (forall w,
     host_run unload_extension (module_paths (self st)) (outside (bot st)) = (w, None) ->
     unload st =
     (Return true, after_calls st w (map Unload_extension (module_paths (self st))))) /\
  (forall w,
     host_run reload_extension (module_paths (self st)) (outside (bot st)) = (w, None) ->
     reload st =
     (Return true, after_calls st w (map Reload_extension (module_paths (self st))))) /\
  (forall b,
     let st_b := mkState (with_enabled b (self st)) (bot st) in
     fst (unload st_b) = fst (unload st) /\
     bot (snd (unload st_b)) = bot (snd (unload st)) /\
     fst (reload st_b) = fst (reload st) /\
     bot (snd (reload st_b)) = bot (snd (reload st))).
Proof.
  split; [|split].
  - intros w Hrun. now rewrite unload_spec, Hrun.
  - intros w Hrun. now rewrite reload_spec, Hrun.
  - intros b st_b. subst st_b. rewrite !unload_spec, !reload_spec.
    cbn [self bot]. rewrite !module_paths_with_enabled.
    destruct (host_run unload_extension (module_paths (self st)) (outside (bot st)))
      as [wu [eu|]];
    destruct (host_run reload_extension (module_paths (self st)) (outside (bot st)))
      as [wr [er|]]; cbn zeta;
    repeat match goal with
           | |- context [caught_by ?c ?e] => destruct (caught_by c e)
           end; repeat split; reflexivity.
Qed.

End HostClaims.

(** ** Dictionaries and the resolution step *)

Lemma dict_set_keys_in k v (d : dict) f :
  In f (keys (dict_set k v d)) <-> f = k \/ In f (keys d).
Proof.
  induction d as [|[k' v'] d IH]; simpl.
  - intuition.
  - destruct (String.eqb k k') eqn:E; simpl.
    + apply String.eqb_eq in E. subst. intuition.
    + rewrite IH. intuition.
Qed.

Lemma dict_set_NoDup k v (d : dict) :
  NoDup (keys d) -> NoDup (keys (dict_set k v d)).
Proof.
  induction d as [|[k' v'] d IH]; simpl; intros Hd.
  - constructor; [intros []|constructor].
  - inversion Hd as [|? ? Hnotin Hrest]; subst.
    destruct (String.eqb k k') eqn:E; simpl.
    + now constructor.
    + constructor; [|now apply IH].
      rewrite dict_set_keys_in. intros [->|Hin]; [|contradiction].
      now rewrite String.eqb_refl in E.
Qed.

(** A dictionary built by [_get_files] has one entry per key. *)
Lemma get_files_NoDup plugin_id db : NoDup (keys (_get_files plugin_id db)).
Proof.
  unfold _get_files.
  generalize (filter (fun row => Z.eqb (PluginFiles.plugin_id row) plugin_id)
                (plugin_files db)).
  intros rows.
  assert (G : forall d, NoDup (keys d) ->
            NoDup (keys (fold_left
              (fun d row => dict_set (PluginFiles.file row) (PluginFiles.file_url row) d)
              rows d))).
  { induction rows as [|row rows IH]; intros d Hd; simpl; [exact Hd|].
    apply IH. now apply dict_set_NoDup. }
  apply G. constructor.
Qed.

Lemma NoDup_map_fst_filter {A B : Type} (g : A * B -> bool) (l : list (A * B)) :
  NoDup (map fst l) -> NoDup (map fst (filter g l)).
Proof.
  induction l as [|e l IH]; simpl; intros Hl; [constructor|].
  inversion Hl as [|? ? Hnotin Hrest]; subst.
  destruct (g e); simpl; [|now apply IH].
  constructor; [|now apply IH].
  intros Hin. apply Hnotin.
  apply in_map_iff in Hin as [x [Hx Hf]]. apply filter_In in Hf as [Hf _].
  apply in_map_iff. now exists x.
Qed.

Section Resolution.
Context {world : Type} `{Collaborators world}.

(** [_exists_localy] sorts the entries of [files] by whether their file is
    on the disk, keeping their order. *)
Lemma exists_localy_spec (p : Plugin) (w : world) :
  _exists_localy p w =
  (forallb (on_disk p w) (files p),
   filter (fun e => negb (on_disk p w e)) (files p),
   map fst (filter (on_disk p w) (files p))).
Proof.
  unfold _exists_localy.
  assert (G : forall l b nl lf,
    fold_left
      (fun (acc : bool * list (string * string) * list string)
           (entry : string * string) =>
         let '(local, non_local_files, local_files) := acc in
         let (file, link) := entry in
         if negb (os_path_exists (plugin_path p file) w)
         then (false, (non_local_files ++ [(file, link)])%list, local_files)
         else (local, non_local_files, (local_files ++ [file])%list))
      l (b, nl, lf) =
    (b && forallb (on_disk p w) l,
     (nl ++ filter (fun e => negb (on_disk p w e)) l)%list,
     (lf ++ map fst (filter (on_disk p w) l))%list)).
  { induction l as [|[file link] l IH]; intros b nl lf; simpl.
    - now rewrite andb_true_r, !app_nil_r.
    - cbn [fold_left forallb filter].
      change (on_disk p w (file, link))
        with (os_path_exists (plugin_path p file) w).
      destruct (os_path_exists (plugin_path p file) w);
        cbn [negb map fst andb]; rewrite IH.
      + now rewrite <- app_assoc.
      + now rewrite andb_false_r, <- app_assoc. }
  apply G.
Qed.

Lemma resolved_files db (w : world) p :
  files (resolved db w p) = _get_files (id p) db.
Proof.
  unfold resolved. cbv zeta. rewrite exists_localy_spec.
  cbn [with_resolution].
  match goal with |- context [if ?c then _ else _] => destruct c end;
    reflexivity.
Qed.

Lemma resolved_lists db (w : world) p :
  let q := resolved db w p in
  empty q = Nat.eqb (List.length (files q)) 0 /\
  local q = forallb (on_disk p w) (files q) /\
  non_local_files q = filter (fun e => negb (on_disk p w e)) (files q) /\
  local_files q = map fst (filter (on_disk p w) (files q)) /\
  enabled q = (if empty q then false else enabled p) /\
  folder_name q = folder_name p /\ id q = id p.
Proof.
  cbv zeta. rewrite resolved_files. unfold resolved. cbv zeta.
  rewrite exists_localy_spec. cbn [with_resolution].
  match goal with |- context [if ?c then _ else _] => destruct c eqn:E end;
    cbn in E |- *; rewrite ?E; repeat split; reflexivity.
Qed.

(** After the resolution step every declared path is in exactly one of
    [local_files] and [non_local_files]. *)
Lemma resolved_partitioned db (w : world) p : partitioned (resolved db w p).
Proof.
  destruct (resolved_lists db w p) as (_ & _ & Hn & Hl & _).
  pose proof (get_files_NoDup (id p) db) as Hnd.
  rewrite <- (resolved_files db w p) in Hnd.
  unfold partitioned, covers, disjoint. rewrite Hn, Hl.
  set (d := files (resolved db w p)) in *. clearbody d. clear Hn Hl.
  split; [|split; [|split]].
  - intros f. split.
    + intros Hin. unfold keys in Hin.
      apply in_map_iff in Hin as [e [<- He]].
      destruct (on_disk p w e) eqn:E.
      * left. apply in_map. apply filter_In. auto.
      * right. apply in_map. apply filter_In. split; [auto|now rewrite E].
    + intros [Hin|Hin]; apply in_map_iff in Hin as [e [<- He]];
        apply filter_In in He as [He _]; now apply in_map.
  - intros f Hl' Hn'.
    apply in_map_iff in Hl' as [e1 [E1 H1]]. apply filter_In in H1 as [_ H1].
    apply in_map_iff in Hn' as [e2 [E2 H2]]. apply filter_In in H2 as [_ H2].
    unfold on_disk in H1, H2. rewrite E1 in H1. rewrite E2 in H2.
    rewrite H1 in H2. discriminate.
  - now apply NoDup_map_fst_filter.
  - now apply NoDup_map_fst_filter.
Qed.

End Resolution.

(** ** The download batch *)

Section Download.
Context {world : Type} `{Collaborators world}.

Lemma with_local_files_same (p : Plugin) : with_local_files (local_files p) p = p.
Proof. destruct p; reflexivity. Qed.

(** One turn of the loop, for every answer of the web and the disk: the
    path is appended only after the fetch, the folders and the write went
    through. *)
Lemma download_one_run s file link (st : State world) :
  download_one s (file, link) st =
  let dir := dirname (plugin_path s file) in
  match requests_get link (outside (bot st)) with
  | (w1, Raise e) => (Raise e, after_calls st w1 [Requests_get link])
  | (w1, Return content) =>
      match os_makedirs dir w1 with
      | (w2, Some e) =>
          (Raise e, after_calls st w2 [Requests_get link; Os_makedirs dir])
      | (w2, None) =>
          let evs := [Requests_get link; Os_makedirs dir;
                      Write_binary (plugin_path s file) content] in
          match write_binary (plugin_path s file) content w2 with
          | (w3, Some e) => (Raise e, after_calls st w3 evs)
          | (w3, None) =>
              (Return tt,
               mkState (with_local_files (local_files (self st) ++ [file]) (self st))
                 (bot (after_calls st w3 evs)))
          end
      end
  end.
Proof.
  unfold download_one, bind, call_value, call, update_self, after_calls.
  cbv zeta.
  destruct (requests_get link (outside (bot st))) as [w1 [content|e]];
    [|reflexivity].
  cbn [outside bot self database calls].
  destruct (os_makedirs (dirname (plugin_path s file)) w1) as [w2 [e|]];
    cbn [outside bot self database calls]; rewrite <- ?app_assoc;
    [reflexivity|].
  destruct (write_binary (plugin_path s file) content w2) as [w3 [e|]];
    cbn [outside bot self database calls]; rewrite <- ?app_assoc;
    reflexivity.
Qed.

(** What a run of the loop leaves in the plugin object: the paths of the
    entries it went through, appended to [local_files]; nothing else of
    the object changes, [non_local_files] included. *)
Lemma download_loop_layout s entries (st : State world) :
  exists fetched missing,
    map fst entries = (fetched ++ missing)%list /\
    self (snd (for_each entries (download_one s) st)) =
      with_local_files (local_files (self st) ++ fetched) (self st) /\
    database (bot (snd (for_each entries (download_one s) st))) =
      database (bot st) /\
    (fst (for_each entries (download_one s) st) = Return tt -> missing = []).
Proof.
  revert st. induction entries as [|[file link] entries IH]; intros st.
  - exists [], []. cbn. rewrite app_nil_r, with_local_files_same. auto.
  - cbn [for_each]. unfold bind. rewrite download_one_run. cbv zeta.
    destruct (requests_get link (outside (bot st))) as [w1 [content|e]].
    2:{ exists [], (map fst ((file, link) :: entries)). cbn.
        rewrite app_nil_r, with_local_files_same.
        repeat split; auto. discriminate. }
    destruct (os_makedirs (dirname (plugin_path s file)) w1) as [w2 [e|]].
    1:{ exists [], (map fst ((file, link) :: entries)). cbn.
        rewrite app_nil_r, with_local_files_same.
        repeat split; auto. discriminate. }
    destruct (write_binary (plugin_path s file) content w2) as [w3 [e|]].
    1:{ exists [], (map fst ((file, link) :: entries)). cbn.
        rewrite app_nil_r, with_local_files_same.
        repeat split; auto. discriminate. }
    match goal with |- context [for_each entries (download_one s) ?st'] =>
      destruct (IH st') as (fetched & missing & Hm & Hs & Hd & Hr) end.
    exists (file :: fetched), missing. cbn [map fst app].
    rewrite Hm, Hs, Hd. cbn [self bot after_calls database local_files with_local_files].
    rewrite <- app_assoc. repeat split; auto.
Qed.

(** [_download] ends in the state its loop ends in, and lets through
    every exception that is no [ConnectionError]. *)
Lemma download_run (st : State world) :
  _download st =
  (match fst (for_each (non_local_files (self st)) (download_one (self st)) st) with
   | Return _ => Return tt
   | Raise e => if caught_by [ConnectionError] e then Return tt else Raise e
   end,
   snd (for_each (non_local_files (self st)) (download_one (self st)) st)).
Proof.
  unfold _download, try_except, bind, get_self.
  destruct (for_each (non_local_files (self st)) (download_one (self st)) st)
    as [[[]|e] st']; cbn [fst snd]; [reflexivity|].
  destruct (caught_by [ConnectionError] e); reflexivity.
Qed.

Lemma download_layout (st : State world) :
  exists fetched missing,
    map fst (non_local_files (self st)) = (fetched ++ missing)%list /\
    self (snd (_download st)) =
      with_local_files (local_files (self st) ++ fetched) (self st) /\
    database (bot (snd (_download st))) = database (bot st).
Proof.
  rewrite download_run. cbn [snd].
  destruct (download_loop_layout (self st) (non_local_files (self st)) st)
    as (fetched & missing & Hm & Hs & Hd & _).
  exists fetched, missing. auto.
Qed.

(** A batch whose k-th fetch raises [e], the k-1 entries before it having
    been downloaded: the batch stops there, [local_files] has grown by the
    paths of those k-1 entries, and [e] is swallowed exactly when it is a
    builtin [ConnectionError]. *)
Lemma download_fetch_failure (st st1 : State world) pre file link post w2 e :
  non_local_files (self st) = (pre ++ (file, link) :: post)%list ->
  for_each pre (download_one (self st)) st = (Return tt, st1) ->
  requests_get link (outside (bot st1)) = (w2, Raise e) ->
  _download st =
    (if caught_by [ConnectionError] e then Return tt else Raise e,
     after_calls st1 w2 [Requests_get link]) /\
  local_files (self (snd (_download st))) =
    (local_files (self st) ++ map fst pre)%list.
Proof.
  intros Hn Hpre Hget.
  assert (Hloop : for_each (non_local_files (self st)) (download_one (self st)) st =
                  (Raise e, after_calls st1 w2 [Requests_get link])).
  { rewrite Hn, for_each_app. unfold bind at 1. rewrite Hpre.
    cbn [for_each]. unfold bind. rewrite download_one_run. cbv zeta.
    now rewrite Hget. }
  rewrite download_run, Hloop. cbn [fst snd]. split; [reflexivity|].
  cbn [after_calls self].
  destruct (download_loop_layout (self st) pre st)
    as (fetched & missing & Hm & Hs & _ & Hr).
  rewrite Hpre in Hs, Hr. cbn [fst snd] in Hs, Hr.
  rewrite (Hr eq_refl), app_nil_r in Hm. subst fetched.
  rewrite Hs. reflexivity.
Qed.

End Download.

(** ** Construction *)

Section Construction.
Context {world : Type} `{Collaborators world}.

(** The folder step touches neither the object nor the database. *)
Lemma ensure_folder_frame (st : State world) :
  self (snd (ensure_folder st)) = self st /\
  database (bot (snd (ensure_folder st))) = database (bot st).
Proof.
  unfold ensure_folder, bind, get_self, ask.
  destruct (os_path_exists (plugin_folder (self st)) (outside (bot st)));
    cbn [negb]; [split; reflexivity|].
  rewrite call_run. split; reflexivity.
Qed.

(** [__init__], step by step. *)
Lemma init_run (plugin_data : PluginData.t) (b : Bot world) :
  __init__ plugin_data b =
  match ensure_folder (mkState (fresh plugin_data) b) with
  | (Raise e, st1) => (Raise e, bot st1)
  | (Return _, st1) =>
      let q := resolved (database (bot st1)) (outside (bot st1)) (self st1) in
      if wants_download q
      then match _download (mkState q (bot st1)) with
           | (Return _, st) => (Return (self st), bot st)
           | (Raise e, st) => (Raise e, bot st)
           end
      else (Return q, bot st1)
  end.
Proof.
  unfold __init__, init_body, bind at 1.
  destruct (ensure_folder (mkState (fresh plugin_data) b)) as [[[]|e] st1];
    [|reflexivity].
  unfold bind, resolve, update_self, get_self. cbn [self bot]. cbv zeta.
  destruct (wants_download
              (resolved (database (bot st1)) (outside (bot st1)) (self st1)));
    reflexivity.
Qed.

(** A constructed plugin is the resolved one, with the paths of the
    entries its download batch went through appended to [local_files]. *)
Lemma init_layout (plugin_data : PluginData.t) (b b' : Bot world) p :
  __init__ plugin_data b = (Return p, b') ->
  exists w fetched missing,
    let q := resolved (database b) w (fresh plugin_data) in
    map fst (non_local_files q) = (fetched ++ missing)%list /\
    p = with_local_files (local_files q ++ fetched) q /\
    (wants_download q = false -> fetched = []).
Proof.
  rewrite init_run.
  destruct (ensure_folder_frame (mkState (fresh plugin_data) b)) as [Hs Hd].
  destruct (ensure_folder (mkState (fresh plugin_data) b)) as [[[]|e] st1];
    [|discriminate].
  cbn [snd self bot database] in Hs, Hd. rewrite Hs, Hd. cbv zeta.
  set (q := resolved (database b) (outside (bot st1)) (fresh plugin_data)).
  destruct (wants_download q) eqn:Hw.
  - destruct (download_layout (mkState q (bot st1)))
      as (fetched & missing & Hm & Hself & _).
    cbn [self] in Hm, Hself.
    destruct (_download (mkState q (bot st1))) as [[[]|e] st2];
      cbv beta iota; [|discriminate].
    intros Heq. inversion Heq; subst p b'. cbn [snd] in Hself.
    exists (outside (bot st1)), fetched, missing. fold q.
    repeat split; auto. congruence.
  - intros Heq. inversion Heq; subst p b'.
    exists (outside (bot st1)), [], (map fst (non_local_files q)). fold q.
    rewrite app_nil_r, with_local_files_same. auto.
Qed.

Lemma length_zero_nil {A : Type} (l : list A) :
  Nat.eqb (List.length l) 0 = true -> l = [].
Proof. destruct l; [reflexivity|discriminate]. Qed.

(** A constructed plugin that is [empty] is the resolved one: nothing was
    downloaded, it has no local file and its flag is off. *)
Lemma init_empty (plugin_data : PluginData.t) (b b' : Bot world) p :
  __init__ plugin_data b = (Return p, b') ->
  empty p = true ->
  enabled p = false /\ local_files p = [] /\ non_local_files p = [] /\ files p = [].
Proof.
  intros Hinit Hempty.
  destruct (init_layout _ _ _ _ Hinit) as (w & fetched & missing & Hm & Hp & Hf).
  cbv zeta in Hm, Hp, Hf.
  destruct (resolved_lists (database b) w (fresh plugin_data))
    as (He & _ & Hn & Hl & Hen & _).
  cbv zeta in He, Hn, Hl, Hen.
  set (q := resolved (database b) w (fresh plugin_data)) in *.
  assert (Heq : empty q = true) by (subst p; exact Hempty).
  assert (Hfiles : files q = []) by (apply length_zero_nil; now rewrite <- He).
  rewrite Hfiles in Hn, Hl. cbn in Hn, Hl.
  assert (Hw : wants_download q = false).
  { unfold wants_download. rewrite Heq. cbn. now rewrite andb_false_r. }
  rewrite (Hf Hw), app_nil_r, with_local_files_same in Hp. subst p.
  rewrite Heq in Hen. auto.
Qed.

(** C4 -- a record without file rows: the constructor either raises what
    the creation of the plugin folder raised, or returns a plugin with
    [empty] true and [enabled] false, whatever the record's own flag (and
    with no local and no missing file). *)
Theorem empty_plugin_is_disabled (plugin_data : PluginData.t) (b : Bot world) :
  _get_files (PluginData.id plugin_data) (database b) = [] ->
  match __init__ plugin_data b with
  | (Return p, _) =>
      empty p = true /\ enabled p = false /\
      files p = [] /\ local_files p = [] /\ non_local_files p = []
  | (Raise e, _) => fst (ensure_folder (mkState (fresh plugin_data) b)) = Raise e
  end.
Proof.
  intros Hnone. rewrite init_run.
  destruct (ensure_folder_frame (mkState (fresh plugin_data) b)) as [Hs Hd].
  destruct (ensure_folder (mkState (fresh plugin_data) b)) as [[[]|e] st1];
    [|reflexivity].
  cbn [snd self bot database] in Hs, Hd. rewrite Hs, Hd. cbv zeta.
  destruct (resolved_lists (database b) (outside (bot st1)) (fresh plugin_data))
    as (He & _ & Hn & Hl & Hen & _).
  cbv zeta in He, Hn, Hl, Hen.
  pose proof (resolved_files (database b) (outside (bot st1)) (fresh plugin_data))
    as Hf.
  cbn [fresh id] in Hf. rewrite Hnone in Hf.
  set (q := resolved (database b) (outside (bot st1)) (fresh plugin_data)) in *.
  rewrite Hf in He, Hn, Hl. cbn in He, Hn, Hl.
  rewrite He in Hen.
  unfold wants_download. rewrite He. cbn [negb andb].
  rewrite andb_false_r. cbn [andb]. auto.
Qed.

End Construction.

(** ** Sequences of operations *)

Lemma NoDup_app_disjoint {A : Type} (l l' : list A) :
  NoDup (l ++ l') -> forall a, In a l -> ~ In a l'.
Proof.
  induction l as [|x l IH]; simpl; intros Hnd a Hin Hin'; [contradiction|].
  inversion Hnd as [|? ? Hnotin Hrest]; subst.
  destruct Hin as [->|Hin].
  - apply Hnotin. apply in_or_app. now right.
  - now apply (IH Hrest a).
Qed.

(** The layout gives the union, and the two lists are disjoint exactly
    when nothing was downloaded. *)
Lemma laid_out_covers p found fetched missing :
  laid_out p found fetched missing ->
  covers p /\ (disjoint p <-> fetched = []).
Proof.
  intros (Hl & Hn & Hnd & Hk). split.
  - intros f. rewrite Hk, Hl, Hn, !in_app_iff. tauto.
  - unfold disjoint. rewrite Hl, Hn. split.
    + intros Hd. destruct fetched as [|x fetched]; [reflexivity|].
      exfalso. apply (Hd x); apply in_or_app; [right|left]; now left.
    + intros ->. rewrite app_nil_r. cbn [app] in *.
      now apply NoDup_app_disjoint.
Qed.

Section Sequences.
Context {world : Type} `{Collaborators world}.

(** The exposed operations change [enabled] and nothing else of the plugin
    object. *)
Lemma run_frame op (st : State world) :
  exists flag, self (snd (run op st)) = with_enabled flag (self st).
Proof.
  destruct op; unfold run.
  - exists true. reflexivity.
  - exists false. reflexivity.
  - unfold bind. rewrite load_spec.
    destruct (enabled (self st)) eqn:He.
    + destruct (host_run load_extension (module_paths (self st)) (outside (bot st)))
        as [w [e|]]; cbv zeta;
        [destruct (caught_by load_handlers e)|];
        cbn [snd self after_calls switched_off ret];
        first [ now exists false
              | exists true; rewrite <- He; now destruct (self st) ].
    + exists false. cbn [snd ret]. rewrite <- He. now destruct (self st).
  - unfold bind. rewrite unload_spec.
    destruct (host_run unload_extension (module_paths (self st)) (outside (bot st)))
      as [w [e|]]; cbv zeta;
      [destruct (caught_by unload_handlers e)|];
      cbn [snd self after_calls switched_off ret];
      first [ now exists false
            | exists (enabled (self st)); now destruct (self st) ].
  - unfold bind. rewrite reload_spec.
    destruct (host_run reload_extension (module_paths (self st)) (outside (bot st)))
      as [w [e|]]; cbv zeta;
      [destruct (caught_by load_handlers e)|];
      cbn [snd self after_calls switched_off ret];
      first [ now exists false
            | exists (enabled (self st)); now destruct (self st) ].
Qed.

Lemma run_all_frame ops (st : State world) :
  exists flag, self (run_all ops st) = with_enabled flag (self st).
Proof.
  unfold run_all. revert st. induction ops as [|op ops IH]; intros st; cbn [fold_left].
  - exists (enabled (self st)). now destruct (self st).
  - destruct (IH (snd (run op st))) as [flag ->].
    destruct (run_frame op st) as [flag' ->]. now exists flag.
Qed.

(** On a plugin without local files no operation reaches the host: the
    outside world and the log of calls stay as they are, and only
    [enable] sets the flag. *)
Lemma run_without_files op (st : State world) :
  local_files (self st) = [] ->
  outside (bot (snd (run op st))) = outside (bot st) /\
  calls (bot (snd (run op st))) = calls (bot st) /\
  (op <> Enable ->
   enabled (self st) = false -> enabled (self (snd (run op st))) = false).
Proof.
  intros Hl.
  assert (Hm : module_paths (self st) = []) by (unfold module_paths; now rewrite Hl).
  destruct op; unfold run.
  - repeat split; auto. congruence.
  - repeat split; auto.
  - unfold bind. rewrite load_spec, Hm. cbn [host_run map].
    rewrite after_calls_nil.
    destruct (enabled (self st)) eqn:He; cbn; repeat split; auto; discriminate.
  - unfold bind. rewrite unload_spec, Hm. cbn [host_run map].
    rewrite after_calls_nil. cbn. auto.
  - unfold bind. rewrite reload_spec, Hm. cbn [host_run map].
    rewrite after_calls_nil. cbn. auto.
Qed.

Lemma run_all_without_files ops (st : State world) :
  local_files (self st) = [] ->
  outside (bot (run_all ops st)) = outside (bot st) /\
  calls (bot (run_all ops st)) = calls (bot st) /\
  (~ In Enable ops ->
   enabled (self st) = false -> enabled (self (run_all ops st)) = false).
Proof.
  unfold run_all. revert st.
  induction ops as [|op ops IH]; intros st Hl; cbn [fold_left].
  - auto.
  - destruct (run_without_files op st Hl) as (Hw & Hc & He).
    destruct (run_frame op st) as [flag Hf].
    assert (Hl' : local_files (self (snd (run op st))) = [])
      by (rewrite Hf; exact Hl).
    destruct (IH _ Hl') as (Hw' & Hc' & He').
    rewrite Hw', Hc', Hw, Hc. repeat split; auto.
    intros Hnot Hoff. apply He'.
    + intros Hin. apply Hnot. now right.
    + apply He; auto. intros ->. apply Hnot. now left.
Qed.

(** C5, as the code has it -- a plugin constructed without files starts
    with [enabled] false, and whatever exposed operations follow, the
    host is never called for it (the outside world and the log of calls
    stay as they were, [local_files] stays empty); [enabled] stays false
    as long as [enable] is not among the operations. *)
Theorem empty_plugin_never_reaches_host
    (plugin_data : PluginData.t) (b b' : Bot world) p ops :
  __init__ plugin_data b = (Return p, b') ->
  empty p = true ->
  let st := run_all ops (mkState p b') in
  enabled p = false /\
  outside (bot st) = outside b' /\
  calls (bot st) = calls b' /\
  local_files (self st) = [] /\
  empty (self st) = true /\
  (~ In Enable ops -> enabled (self st) = false).
Proof.
  intros Hinit Hempty st.
  destruct (init_empty _ _ _ _ Hinit Hempty) as (He & Hl & _ & _).
  destruct (run_all_without_files ops (mkState p b') Hl) as (Hw & Hc & Hoff).
  destruct (run_all_frame ops (mkState p b')) as [flag Hf].
  subst st. rewrite Hf. cbn [self bot] in *.
  repeat split; auto.
  intros Hnot. rewrite <- Hf. now apply Hoff.
Qed.

(** A run of the download loop, entry by entry: the entries before the
    first call that raises ([pre]) are fetched, written and appended to
    [local_files]; the first of the others ([post]), if there is one, is
    the entry at which a call raised. *)
Lemma download_loop_batch s entries (st : State world) :
  exists pre post w2 evs,
    entries = (pre ++ post)%list /\
    fetch_all s pre (outside (bot st)) = Some (w2, evs) /\
    self (snd (for_each entries (download_one s) st)) =
      with_local_files (local_files (self st) ++ map fst pre) (self st) /\
    (post = [] \/
     exists entry rest, post = entry :: rest /\ fetch_all s [entry] w2 = None).
Proof.
  revert st. induction entries as [|[file link] entries IH]; intros st.
  - exists [], [], (outside (bot st)), []. cbn [for_each ret snd map app fetch_all].
    rewrite app_nil_r, with_local_files_same. auto.
  - cbn [for_each]. unfold bind. rewrite download_one_run. cbv zeta.
    destruct (requests_get link (outside (bot st))) as [w1 [content|e]] eqn:Hget.
    2:{ exists [], ((file, link) :: entries), (outside (bot st)), [].
        cbn [snd after_calls self map app fetch_all].
        rewrite app_nil_r, with_local_files_same.
        repeat split; auto. right. exists (file, link), entries.
        split; [reflexivity|]. cbn [fetch_all]. now rewrite Hget. }
    destruct (os_makedirs (dirname (plugin_path s file)) w1) as [w2 [e|]] eqn:Hmk.
    1:{ exists [], ((file, link) :: entries), (outside (bot st)), [].
        cbn [snd after_calls self map app fetch_all].
        rewrite app_nil_r, with_local_files_same.
        repeat split; auto. right. exists (file, link), entries.
        split; [reflexivity|]. cbn [fetch_all]. now rewrite Hget, Hmk. }
    destruct (write_binary (plugin_path s file) content w2) as [w3 [e|]] eqn:Hwr.
    1:{ exists [], ((file, link) :: entries), (outside (bot st)), [].
        cbn [snd after_calls self map app fetch_all].
        rewrite app_nil_r, with_local_files_same.
        repeat split; auto. right. exists (file, link), entries.
        split; [reflexivity|]. cbn [fetch_all]. now rewrite Hget, Hmk, Hwr. }
    match goal with |- context [for_each entries (download_one s) ?st'] =>
      destruct (IH st') as (pre & post & w' & evs & He & Hf & Hs & Hp) end.
    cbn [outside bot after_calls] in Hf.
    exists ((file, link) :: pre), post, w',
      (Requests_get link :: Os_makedirs (dirname (plugin_path s file))
       :: Write_binary (plugin_path s file) content :: evs).
    split; [now rewrite He|]. split.
    + cbn [fetch_all]. now rewrite Hget, Hmk, Hwr, Hf.
    + split; [|exact Hp]. rewrite Hs.
      cbn [self local_files with_local_files map fst].
      now rewrite <- app_assoc.
Qed.

(** C2, as the code has it -- the resolution step partitions the keys of
    [files].  Of the entries that were missing then, construction
    downloads the longest run [pre] whose fetch, folders and write all go
    through (none when the plugin is not to download), and appends their
    paths to [local_files]; [non_local_files] is never written again.  So
    on a constructed plugin, after every sequence of exposed operations,
    [files] and [non_local_files] are as resolved, [local_files] is what
    was found on the disk followed by the downloaded paths, the union is
    [keys(files)], the paths in both lists are exactly the downloaded
    ones, and the two lists are disjoint exactly when nothing was
    downloaded. *)
Theorem partition_until_download :
  (forall db (w : world) p0, partitioned (resolved db w p0)) /\
  (forall plugin_data (b b' : Bot world) p,
     __init__ plugin_data b = (Return p, b') ->
     let w1 := outside (bot (snd (ensure_folder (mkState (fresh plugin_data) b)))) in
     let q := resolved (database b) w1 (fresh plugin_data) in
     exists pre post,
       non_local_files q = (pre ++ post)%list /\
       (if wants_download q
        then exists w2 evs,
               fetch_all q pre w1 = Some (w2, evs) /\
               (post = [] \/
                exists entry rest,
                  post = entry :: rest /\ fetch_all q [entry] w2 = None)
        else pre = []) /\
       forall ops,
         let r := self (run_all ops (mkState p b')) in
         files r = files q /\
         non_local_files r = non_local_files q /\
         local_files r = (local_files q ++ map fst pre)%list /\
         laid_out r (local_files q) (map fst pre) (map fst post) /\
         covers r /\
         (forall f,
            In f (local_files r) /\ In f (map fst (non_local_files r)) <->
            In f (map fst pre)) /\
         (disjoint r <-> pre = [])).
Proof.
  split; [intros; apply resolved_partitioned|].
  intros plugin_data b b' p Hinit. cbv zeta.
  rewrite init_run in Hinit.
  destruct (ensure_folder_frame (mkState (fresh plugin_data) b)) as [Hs Hd].
  destruct (ensure_folder (mkState (fresh plugin_data) b)) as [[[]|e] st1];
    [|discriminate].
  cbn [snd self bot database] in Hs, Hd |- *. rewrite Hs, Hd in Hinit.
  cbv zeta in Hinit.
  destruct (resolved_partitioned (database b) (outside (bot st1)) (fresh plugin_data))
    as (Hcov & Hdis & Hnl & Hnn).
  set (q := resolved (database b) (outside (bot st1)) (fresh plugin_data)) in *.
  assert (Hp : exists pre post,
            non_local_files q = (pre ++ post)%list /\
            (if wants_download q
             then exists w2 evs,
                    fetch_all q pre (outside (bot st1)) = Some (w2, evs) /\
                    (post = [] \/
                     exists entry rest,
                       post = entry :: rest /\ fetch_all q [entry] w2 = None)
             else pre = []) /\
            p = with_local_files (local_files q ++ map fst pre) q).
  { destruct (wants_download q).
    - rewrite download_run in Hinit. cbn [self] in Hinit.
      destruct (download_loop_batch q (non_local_files q) (mkState q (bot st1)))
        as (pre & post & w2 & evs & He & Hf & Hself & Hpost).
      cbn [self bot] in Hf, Hself.
      exists pre, post. split; [exact He|]. split; [now exists w2, evs|].
      destruct (for_each (non_local_files q) (download_one q) (mkState q (bot st1)))
        as [[[]|e] st2]; cbn [fst snd] in Hinit, Hself.
      + inversion Hinit; subst. exact Hself.
      + destruct (caught_by [ConnectionError] e);
          [inversion Hinit; subst; exact Hself|discriminate].
    - inversion Hinit; subst.
      exists [], (non_local_files q). cbn [map app].
      now rewrite app_nil_r, with_local_files_same. }
  destruct Hp as (pre & post & He & Hbatch & Hpq).
  exists pre, post. split; [exact He|]. split; [exact Hbatch|].
  intros ops.
  destruct (run_all_frame ops (mkState p b')) as [flag ->].
  cbn [self]. subst p.
  cbn [with_enabled with_local_files files non_local_files local_files].
  assert (Hmap : map fst (non_local_files q) = (map fst pre ++ map fst post)%list)
    by (now rewrite He, map_app).
  assert (Hlay : laid_out
            (with_enabled flag
               (with_local_files (local_files q ++ map fst pre) q))
            (local_files q) (map fst pre) (map fst post)).
  { unfold laid_out.
    cbn [with_enabled with_local_files files non_local_files local_files].
    split; [reflexivity|]. split; [exact Hmap|]. split.
    - rewrite <- Hmap. apply NoDup_app; auto.
    - intros f. rewrite (Hcov f), Hmap, !in_app_iff. tauto. }
  assert (Hboth : forall f,
            In f (local_files q ++ map fst pre)%list /\
            In f (map fst (non_local_files q)) <-> In f (map fst pre)).
  { intros f. split.
    - intros [Hl Hn]. apply in_app_or in Hl as [Hl|Hl]; [|exact Hl].
      now destruct (Hdis f Hl).
    - intros Hf. split; [apply in_or_app; now right|].
      rewrite Hmap. apply in_or_app. now left. }
  split; [reflexivity|]. split; [reflexivity|]. split; [reflexivity|].
  split; [exact Hlay|]. split; [exact (proj1 (laid_out_covers _ _ _ _ Hlay))|].
  split; [exact Hboth|].
  unfold disjoint.
  cbn [with_enabled with_local_files files non_local_files local_files].
  split.
  - intros Hd'. destruct pre as [|[f l] pre]; [reflexivity|]. exfalso.
    apply (Hd' f); apply (Hboth f); now left.
  - intros -> f Hl Hn. apply (proj1 (Hboth f)). now split.
Qed.

(** C7 -- a batch whose k-th fetch fails with the connection error of the
    HTTP client, the k-1 entries before it having been downloaded: the
    rest of the batch is not attempted, [local_files] has grown by the
    paths of the first k-1 entries and holds none of the later ones, but
    the handler names the builtin [ConnectionError], which the client's
    class does not derive from: the exception leaves [_download]. *)
Theorem download_connection_error_escapes
    (st st1 : State world) pre file link post w2 :
  partitioned (self st) ->
  non_local_files (self st) = (pre ++ (file, link) :: post)%list ->
  for_each pre (download_one (self st)) st = (Return tt, st1) ->
  requests_get link (outside (bot st1)) = (w2, Raise requests_ConnectionError) ->
  _download st =
    (Raise requests_ConnectionError, after_calls st1 w2 [Requests_get link]) /\
  local_files (self (snd (_download st))) =
    (local_files (self st) ++ map fst pre)%list /\
  (forall f, In f (file :: map fst post) ->
             ~ In f (local_files (self (snd (_download st))))).
Proof.
  intros (_ & Hdis & _ & Hnn) Hn Hpre Hget.
  destruct (download_fetch_failure st st1 pre file link post w2 _ Hn Hpre Hget)
    as [Hrun Hl].
  change (caught_by [ConnectionError] requests_ConnectionError) with false in Hrun.
  cbv iota in Hrun. split; [exact Hrun|]. split; [exact Hl|].
  intros f Hf. rewrite Hl. intros Hin.
  rewrite Hn, map_app in Hnn. cbn [map fst] in Hnn.
  apply in_app_or in Hin as [Hin|Hin].
  - apply (Hdis f Hin). rewrite Hn, map_app. cbn [map fst].
    apply in_or_app. now right.
  - exact (NoDup_app_disjoint _ _ Hnn f Hin Hf).
Qed.

End Sequences.

(** ** The module identifier *)

Lemma replace_char a b s :
  replace (String a EmptyString) (String b EmptyString) s =
  map_chars (fun c => if Ascii.eqb a c then b else c) s.
Proof.
  unfold replace. induction s as [|c s IH]; [reflexivity|].
  cbn [replace_from startswith map_chars String.length Nat.sub].
  destruct (Ascii.eqb a c); cbn [andb]; [cbn [append]|]; now rewrite IH.
Qed.

Lemma map_chars_compose f g s :
  map_chars f (map_chars g s) = map_chars (fun c => f (g c)) s.
Proof. induction s as [|c s IH]; cbn; [reflexivity|now rewrite IH]. Qed.

Lemma map_chars_ext f g s :
  (forall c, f c = g c) -> map_chars f s = map_chars g s.
Proof. intros E. induction s as [|c s IH]; cbn; [reflexivity|now rewrite E, IH]. Qed.

(** The four single-character replacements, one after the other, are
    [safe_char] on every character. *)
Lemma replacements_safe_char (c : ascii) :
  (let r1 := if Ascii.eqb " " c then "_"%char else c in
   let r2 := if Ascii.eqb "-" r1 then "_"%char else r1 in
   let r3 := if Ascii.eqb "." r2 then "_"%char else r2 in
   if Ascii.eqb "/" r3 then "."%char else r3) = safe_char c.
Proof.
  destruct c as [[] [] [] [] [] [] [] []]; reflexivity.
Qed.

(** [generate_safe_path]: every occurrence of [.py] is deleted, then each
    character goes through [safe_char], then the prefix is put in front. *)
Lemma generate_safe_path_chars (p : Plugin) path :
  generate_safe_path p path =
  "plugins." ++ folder_name p ++ "." ++ map_chars safe_char (replace ".py" "" path).
Proof.
  unfold generate_safe_path. rewrite !replace_char, !map_chars_compose.
  do 3 f_equal. apply map_chars_ext. intros c.
  exact (replacements_safe_char c).
Qed.

Lemma startswith_py_append c s :
  startswith ".py" (String c s) = false ->
  startswith ".py" (String c (s ++ ".py")) = false.
Proof.
  destruct s as [|c1 [|c2 s]]; cbn; intros Hs.
  - now rewrite andb_false_r.
  - now rewrite !andb_false_r.
  - exact Hs.
Qed.

(** A path whose only [.py] is its suffix loses just that suffix. *)
Lemma replace_py_suffix stem :
  occurs_in ".py" stem = false -> replace ".py" "" (stem ++ ".py") = stem.
Proof.
  unfold replace. induction stem as [|c stem IH]; intros Hocc; [reflexivity|].
  cbn [occurs_in] in Hocc. apply orb_false_iff in Hocc as [Hs Hocc].
  change (String c stem ++ ".py") with (String c (stem ++ ".py")).
  cbn [replace_from]. rewrite (startswith_py_append _ _ Hs).
  now rewrite IH.
Qed.

Lemma length_append (a b : string) :
  String.length (a ++ b) = (String.length a + String.length b)%nat.
Proof. induction a as [|c a IH]; cbn; [reflexivity|now rewrite IH]. Qed.

Lemma strip_py_suffix stem : strip_suffix ".py" (stem ++ ".py") = stem.
Proof.
  induction stem as [|c stem IH]; [reflexivity|].
  change (String c stem ++ ".py") with (String c (stem ++ ".py")).
  cbn [strip_suffix].
  destruct (String.eqb (String c (stem ++ ".py")) ".py") eqn:E; [|now rewrite IH].
  apply String.eqb_eq in E. apply (f_equal String.length) in E.
  cbn in E. rewrite length_append in E. cbn in E. lia.
Qed.

Lemma no_dot_no_py s : has_char "." s = false -> occurs_in ".py" s = false.
Proof.
  induction s as [|c s IH]; [reflexivity|].
  cbn [has_char occurs_in startswith]. intros Hd.
  apply orb_false_iff in Hd as [Hc Hd].
  rewrite (IH Hd), Ascii.eqb_sym, Hc. reflexivity.
Qed.

Lemma plain_stem_chars c s :
  plain_stem (String c s) = true ->
  Ascii.eqb c " " = false /\ Ascii.eqb c "-" = false /\ Ascii.eqb c "." = false /\
  plain_stem s = true.
Proof.
  unfold plain_stem. cbn [has_char]. intros Hp.
  apply andb_true_iff in Hp as [Hp H3]. apply andb_true_iff in Hp as [H1 H2].
  apply negb_true_iff, orb_false_iff in H1 as [A1 A2].
  apply negb_true_iff, orb_false_iff in H2 as [B1 B2].
  apply negb_true_iff, orb_false_iff in H3 as [D1 D2].
  rewrite A2, B2, D2. auto.
Qed.

Lemma safe_char_plain_inj c1 c2 :
  Ascii.eqb c1 " " = false -> Ascii.eqb c1 "-" = false -> Ascii.eqb c1 "." = false ->
  Ascii.eqb c2 " " = false -> Ascii.eqb c2 "-" = false -> Ascii.eqb c2 "." = false ->
  safe_char c1 = safe_char c2 -> c1 = c2.
Proof.
  intros A1 B1 D1 A2 B2 D2. unfold safe_char. rewrite A1, B1, D1, A2, B2, D2.
  destruct (Ascii.eqb c1 "/") eqn:S1; destruct (Ascii.eqb c2 "/") eqn:S2; intros E.
  - apply Ascii.eqb_eq in S1, S2. congruence.
  - subst c2. discriminate.
  - subst c1. discriminate.
  - exact E.
Qed.

Lemma map_safe_char_plain_inj s1 s2 :
  plain_stem s1 = true -> plain_stem s2 = true ->
  map_chars safe_char s1 = map_chars safe_char s2 -> s1 = s2.
Proof.
  revert s2. induction s1 as [|c1 s1 IH]; intros [|c2 s2] P1 P2 E;
    try reflexivity; try discriminate.
  apply plain_stem_chars in P1 as (A1 & B1 & D1 & P1).
  apply plain_stem_chars in P2 as (A2 & B2 & D2 & P2).
  cbn in E. injection E as Ec Es.
  f_equal; [now apply safe_char_plain_inj|now apply IH].
Qed.

Lemma append_cancel_l (a x y : string) : a ++ x = a ++ y -> x = y.
Proof.
  induction a as [|c a IH]; cbn; intros E; [exact E|].
  injection E as E. now apply IH.
Qed.

Lemma plain_stem_no_py s : plain_stem s = true -> occurs_in ".py" s = false.
Proof.
  unfold plain_stem. rewrite !andb_true_iff, !negb_true_iff.
  intros [_ Hd]. now apply no_dot_no_py.
Qed.

(** C8, as the code has it -- the translation is a function of the folder
    name and the path: it deletes every occurrence of [.py], maps space,
    hyphen and dot to the underscore and the slash to the dot, and puts
    [plugins.<folder_name>.] in front; on a path whose only [.py] is its
    suffix this is the translation the specification words; on paths
    [stem.py] whose stems hold no space, hyphen or dot it is injective. *)
Theorem module_identifier_translation (p : Plugin) :
  (forall path,
     generate_safe_path p path =
     "plugins." ++ folder_name p ++ "." ++
     map_chars safe_char (replace ".py" "" path)) /\
  (forall stem,
     occurs_in ".py" stem = false ->
     generate_safe_path p (stem ++ ".py") =
       spec_module_identifier (folder_name p) (stem ++ ".py") /\
     generate_safe_path p (stem ++ ".py") =
       "plugins." ++ folder_name p ++ "." ++ map_chars safe_char stem) /\
  (forall stem1 stem2,
     plain_stem stem1 = true -> plain_stem stem2 = true ->
     generate_safe_path p (stem1 ++ ".py") = generate_safe_path p (stem2 ++ ".py") ->
     stem1 = stem2).
Proof.
  split; [|split].
  - apply generate_safe_path_chars.
  - intros stem Hocc. unfold spec_module_identifier.
    now rewrite generate_safe_path_chars, replace_py_suffix, strip_py_suffix.
  - intros stem1 stem2 P1 P2.
    rewrite !generate_safe_path_chars,
      (replace_py_suffix _ (plain_stem_no_py _ P1)),
      (replace_py_suffix _ (plain_stem_no_py _ P2)).
    intros E. do 3 apply append_cancel_l in E.
    now apply map_safe_char_plain_inj.
Qed.

(** ** Requirements *)

Lemma filter_all {A : Type} (g : A -> bool) (l : list A) :
  (forall x, In x l -> g x = true) -> filter g l = l.
Proof.
  induction l as [|x l IH]; intros Hall; cbn; [reflexivity|].
  rewrite (Hall x (or_introl eq_refl)). f_equal. apply IH.
  intros y Hy. apply Hall. now right.
Qed.

(** A pattern without a line feed is found at the head of a text
    followed by a line feed only when it is found in the text itself. *)
Lemma startswith_before_line_feed p t rest :
  has_char (ascii_of_nat 10) p = false ->
  startswith p (t ++ String (ascii_of_nat 10) rest) = startswith p t.
Proof.
  revert t. induction p as [|a p IH]; intros t Hp; [now destruct t|].
  cbn [has_char] in Hp. apply orb_false_iff in Hp as [Ha Hp].
  destruct t as [|b t]; cbn [append startswith].
  - now rewrite Ha.
  - now rewrite IH.
Qed.

Lemma boundary_line_feed rest : boundary (String (ascii_of_nat 10) rest) = 1.
Proof. reflexivity. Qed.

(** Where no boundary starts in a line, none starts in the line followed
    by a line feed. *)
Lemma boundary_inside c t rest :
  boundary (String c t) = 0 ->
  boundary (String c (t ++ String (ascii_of_nat 10) rest)) = 0.
Proof.
  unfold boundary. destruct (is_single_boundary c).
  - destruct (startswith CRLF (String c t)); discriminate.
  - change (String c (t ++ String (ascii_of_nat 10) rest))
      with (String c t ++ String (ascii_of_nat 10) rest).
    rewrite !startswith_before_line_feed by reflexivity.
    trivial.
Qed.

Lemma append_empty_r (s : string) : s ++ "" = s.
Proof. induction s as [|c s IH]; cbn; [reflexivity|now rewrite IH]. Qed.

Lemma append_snoc (a : string) c (b : string) :
  (a ++ String c "") ++ b = a ++ String c b.
Proof. induction a as [|x a IH]; cbn; [reflexivity|now rewrite IH]. Qed.

Lemma append_assoc' (a b c : string) : (a ++ b) ++ c = a ++ (b ++ c).
Proof. induction a as [|x a IH]; cbn; [reflexivity|now rewrite IH]. Qed.

(** Reading a line and the line feed that ends it closes exactly that
    line. *)
Lemma splitlines_from_line line l rest :
  no_boundary l = true ->
  splitlines_from line 0 (l ++ String (ascii_of_nat 10) rest) =
  (line ++ l) :: splitlines_from "" 0 rest.
Proof.
  revert line. induction l as [|c l IH]; intros line Hl.
  - cbn [append splitlines_from]. rewrite boundary_line_feed.
    now rewrite append_empty_r.
  - cbn [no_boundary] in Hl. apply andb_true_iff in Hl as [Hb Hl].
    apply Nat.eqb_eq in Hb.
    cbn [append splitlines_from]. rewrite (boundary_inside _ _ _ Hb).
    now rewrite (IH _ Hl), append_snoc.
Qed.

(** Reading a last line that no line feed ends. *)
Lemma splitlines_from_last line l :
  no_boundary l = true ->
  splitlines_from line 0 l =
  match line ++ l with
  | EmptyString => []
  | String _ _ => [line ++ l]
  end.
Proof.
  revert line. induction l as [|c l IH]; intros line Hl.
  - cbn [splitlines_from]. rewrite append_empty_r. reflexivity.
  - cbn [no_boundary] in Hl. apply andb_true_iff in Hl as [Hb Hl].
    apply Nat.eqb_eq in Hb.
    cbn [splitlines_from]. rewrite Hb, (IH _ Hl), append_snoc. reflexivity.
Qed.

(** [splitlines] gives back the lines a text was made of, the empty ones
    too, and a last line without line feed when it is not empty. *)
Lemma splitlines_unlines ls last :
  (forall l, In l ls -> no_boundary l = true) ->
  no_boundary last = true ->
  splitlines (unlines ls ++ last) =
  (ls ++ match last with EmptyString => [] | String _ _ => [last] end)%list.
Proof.
  unfold splitlines. intros Hls Hlast.
  induction ls as [|l ls IH].
  - cbn [unlines append app]. rewrite (splitlines_from_last _ _ Hlast).
    reflexivity.
  - cbn [unlines app]. unfold LF. rewrite append_assoc'.
    change (String (ascii_of_nat 10) "" ++ unlines ls)
      with (String (ascii_of_nat 10) (unlines ls)).
    change (String (ascii_of_nat 10) (unlines ls) ++ last)
      with (String (ascii_of_nat 10) (unlines ls ++ last)).
    rewrite splitlines_from_line by (apply Hls; now left).
    cbn [append]. f_equal. apply IH. intros x Hx. apply Hls. now right.
Qed.

Lemma nonempty_filter_fixed (ls : list string) :
  ls = filter (fun l => negb (String.eqb l "")) ls <-> ~ In "" ls.
Proof.
  split.
  - intros E Hin. rewrite E in Hin. apply filter_In in Hin as [_ Hne].
    discriminate.
  - intros Hnone. symmetry. apply filter_all. intros l Hl.
    apply negb_true_iff, String.eqb_neq. intros ->. now apply Hnone.
Qed.

Section Requirements.
Context {world : Type} `{Collaborators world}.

(** C9, as the code has it -- [get_requirements] reads the disk at every
    call and changes nothing.  Without a requirements file it returns the
    empty list; otherwise it returns [splitlines] of the text read: for a
    text made of the lines [ls], each ended by a line feed, and of an
    optional last line without one, exactly these lines in order, an empty
    line as an empty string.  These are the non-empty lines of the file
    exactly when the file has no empty line. *)
Theorem get_requirements_lines (st : State world) :
  let path := plugin_folder (self st) ++ "/requirements.txt" in
  (os_path_exists path (outside (bot st)) = false ->
   get_requirements st = (Return [], st)) /\
  (forall text,
     os_path_exists path (outside (bot st)) = true ->
     read_text path (outside (bot st)) = Return text ->
     get_requirements st = (Return (splitlines text), st)) /\
  (forall ls last,
     (forall l, In l ls -> no_boundary l = true) ->
     no_boundary last = true ->
     os_path_exists path (outside (bot st)) = true ->
     read_text path (outside (bot st)) = Return (unlines ls ++ last) ->
     let lines := (ls ++ match last with
                        | EmptyString => []
                        | String _ _ => [last]
                        end)%list in
     get_requirements st = (Return lines, st) /\
     nonempty_lines (unlines ls ++ last) =
       filter (fun l => negb (String.eqb l "")) lines /\
     (lines = nonempty_lines (unlines ls ++ last) <-> ~ In "" lines)).
Proof.
  cbv zeta. split; [|split].
  - intros Hno. unfold get_requirements, bind, get_self, ask. now rewrite Hno.
  - intros text Hyes Hread.
    unfold get_requirements, bind, get_self, ask. now rewrite Hyes, Hread.
  - intros ls last Hls Hlast Hyes Hread.
    pose proof (splitlines_unlines ls last Hls Hlast) as Hsplit.
    split; [|split].
    + unfold get_requirements, bind, get_self, ask.
      rewrite Hyes, Hread. unfold ret. now rewrite Hsplit.
    + unfold nonempty_lines. now rewrite Hsplit.
    + unfold nonempty_lines. rewrite Hsplit. apply nonempty_filter_fixed.
Qed.

End Requirements.

(** ** The claims on concrete plugins *)

(** C3 -- errors do leave the plugin.  Loading an enabled plugin a second
    time makes the host report its first file as already loaded, and
    [load] lets [ExtensionAlreadyLoaded] through; constructing a disabled
    plugin whose second file is on a host that cannot be reached lets the
    HTTP client's connection error through [_download] and out of the
    constructor. *)
Theorem errors_leave_the_plugin :
  fst (load one_file) = Return true /\
  load (snd (load one_file)) =
    (Raise ExtensionAlreadyLoaded,
     after_calls (snd (load one_file)) (outside (bot (snd (load one_file))))
       [Load_extension "plugins.demo.a"]) /\
  fst (_download about_to_download) = Raise requests_ConnectionError /\
  fst (__init__ (demo_record false) nothing_local) = Raise requests_ConnectionError.
Proof. repeat split; vm_compute; reflexivity. Qed.

Lemma load_already_loaded_escapes_witness :
  enabled (self second_already_loaded) = true /\
  load second_already_loaded =
    (Raise ExtensionAlreadyLoaded,
     after_calls second_already_loaded
       (Mock.mk ["plugins.demo.b"; "plugins.demo.a"] demo_modules (demo_disk []) demo_web)
       [Load_extension "plugins.demo.a"; Load_extension "plugins.demo.b"]) /\
  enabled (self (snd (load second_already_loaded))) = true.
Proof.
  split; [reflexivity|].
  destruct (@load_already_loaded_escapes _ mock_collaborators second_already_loaded
              ["a.py"] "b.py" ["c.py"]
              (Mock.mk ["plugins.demo.b"; "plugins.demo.a"] demo_modules
                 (demo_disk []) demo_web)
              (Mock.mk ["plugins.demo.b"; "plugins.demo.a"] demo_modules
                 (demo_disk []) demo_web)
              eq_refl eq_refl
              ltac:(vm_compute; reflexivity)
              ltac:(vm_compute; reflexivity)) as (Hrun & He & _).
  split; [exact Hrun|exact He].
Defined.

Lemma load_disabled_is_inert_witness :
  enabled (self disabled_but_loaded) = false /\
  load disabled_but_loaded = (Return false, disabled_but_loaded).
Proof.
  split; [reflexivity|].
  apply load_disabled_is_inert. reflexivity.
Defined.

Lemma unload_reload_ignore_enabled_witness :
  enabled (self disabled_but_loaded) = false /\
  unload disabled_but_loaded =
    (Return true,
     after_calls disabled_but_loaded
       (Mock.mk [] demo_modules (demo_disk []) demo_web)
       [Unload_extension "plugins.demo.a"; Unload_extension "plugins.demo.b"]) /\
  reload disabled_but_loaded =
    (Return true,
     after_calls disabled_but_loaded (outside (bot disabled_but_loaded))
       [Reload_extension "plugins.demo.a"; Reload_extension "plugins.demo.b"]).
Proof.
  split; [reflexivity|].
  destruct (@unload_reload_ignore_enabled _ mock_collaborators disabled_but_loaded)
    as (Hu & Hr & _).
  split.
  - exact (Hu (Mock.mk [] demo_modules (demo_disk []) demo_web)
             ltac:(vm_compute; reflexivity)).
  - exact (Hr (outside (bot disabled_but_loaded))
             ltac:(vm_compute; reflexivity)).
Defined.

Lemma empty_plugin_is_disabled_witness :
  PluginData.enabled (demo_record true) = true /\
  __init__ (demo_record true) no_rows = (Return empty_demo, no_rows) /\
  empty empty_demo = true /\ enabled empty_demo = false.
Proof.
  split; [reflexivity|].
  pose proof (@empty_plugin_is_disabled _ mock_collaborators
                (demo_record true) no_rows eq_refl) as W.
  assert (E : __init__ (demo_record true) no_rows = (Return empty_demo, no_rows))
    by (vm_compute; reflexivity).
  rewrite E in W. destruct W as (He & Hd & _). auto.
Defined.

Lemma empty_plugin_never_reaches_host_witness :
  let st := run_all [Load; Unload; Reload; Disable; Load] (mkState empty_demo no_rows) in
  enabled empty_demo = false /\
  outside (bot st) = outside no_rows /\
  calls (bot st) = [] /\
  local_files (self st) = [] /\
  empty (self st) = true /\
  enabled (self st) = false.
Proof.
  destruct (@empty_plugin_never_reaches_host _ mock_collaborators
              (demo_record true) no_rows no_rows
              empty_demo [Load; Unload; Reload; Disable; Load]
              ltac:(vm_compute; reflexivity) eq_refl)
    as (H0 & Hw & Hc & Hl & He & Hoff).
  cbv zeta.
  split; [exact H0|]. split; [exact Hw|]. split; [exact Hc|].
  split; [exact Hl|]. split; [exact He|].
  apply Hoff. cbn. intros [E|[E|[E|[E|[E|[]]]]]]; discriminate.
Defined.

(** C5, as stated, fails: [enable] on the plugin constructed without files
    sets [enabled], and the [load] that follows answers [True]. *)
Lemma enable_revives_empty_plugin :
  __init__ (demo_record true) no_rows = (Return empty_demo, no_rows) /\
  empty empty_demo = true /\
  enabled (self (run_all [Enable] (mkState empty_demo no_rows))) = true /\
  fst (load (run_all [Enable] (mkState empty_demo no_rows))) = Return true.
Proof. repeat split; vm_compute; reflexivity. Qed.

Lemma partition_until_download_witness :
  __init__ (demo_record false) one_missing =
    (Return downloaded_demo, snd (__init__ (demo_record false) one_missing)) /\
  let w1 := outside (bot (snd (ensure_folder
                                 (mkState (fresh (demo_record false)) one_missing)))) in
  let q := resolved (database one_missing) w1 (fresh (demo_record false)) in
  exists pre post,
    non_local_files q = (pre ++ post)%list /\
    (if wants_download q
     then exists w2 evs,
            fetch_all q pre w1 = Some (w2, evs) /\
            (post = [] \/
             exists entry rest,
               post = entry :: rest /\ fetch_all q [entry] w2 = None)
     else pre = []) /\
    forall ops,
      let r := self (run_all ops
                       (mkState downloaded_demo
                          (snd (__init__ (demo_record false) one_missing)))) in
      files r = files q /\
      non_local_files r = non_local_files q /\
      local_files r = (local_files q ++ map fst pre)%list /\
      laid_out r (local_files q) (map fst pre) (map fst post) /\
      covers r /\
      (forall f,
         In f (local_files r) /\ In f (map fst (non_local_files r)) <->
         In f (map fst pre)) /\
      (disjoint r <-> pre = []).
Proof.
  assert (E : __init__ (demo_record false) one_missing =
              (Return downloaded_demo, snd (__init__ (demo_record false) one_missing)))
    by (vm_compute; reflexivity).
  split; [exact E|].
  exact (proj2 (@partition_until_download _ mock_collaborators)
           (demo_record false) one_missing _ _ E).
Defined.

(** C2, as stated, fails: after construction downloaded [a.py], the path
    is in [local_files] and still in [non_local_files]. *)
Lemma downloaded_path_in_both_lists :
  __init__ (demo_record false) one_missing =
    (Return downloaded_demo, snd (__init__ (demo_record false) one_missing)) /\
  In "a.py" (local_files downloaded_demo) /\
  In "a.py" (map fst (non_local_files downloaded_demo)) /\
  ~ partitioned downloaded_demo.
Proof.
  split; [vm_compute; reflexivity|].
  split; [now left|]. split; [now left|].
  intros (_ & Hdis & _). apply (Hdis "a.py"); now left.
Qed.

Lemma download_connection_error_escapes_witness :
  fst (_download about_to_download) = Raise requests_ConnectionError /\
  local_files (self (snd (_download about_to_download))) = ["a.py"] /\
  ~ In "b.py" (local_files (self (snd (_download about_to_download)))) /\
  ~ In "c.py" (local_files (self (snd (_download about_to_download)))).
Proof.
  destruct (@download_connection_error_escapes _ mock_collaborators about_to_download
              (snd (for_each [("a.py", "http://files.example/a.py")]
                      (download_one (self about_to_download)) about_to_download))
              [("a.py", "http://files.example/a.py")]
              "b.py" "http://down.example/b.py"
              [("c.py", "http://files.example/c.py")]
              (outside (bot (snd (for_each [("a.py", "http://files.example/a.py")]
                      (download_one (self about_to_download)) about_to_download))))
              (resolved_partitioned _ _ _)
              ltac:(vm_compute; reflexivity)
              ltac:(vm_compute; reflexivity)
              ltac:(vm_compute; reflexivity))
    as (Hrun & Hl & Habsent).
  split; [now rewrite Hrun|]. split; [exact Hl|].
  split; apply Habsent; cbn; auto.
Defined.

Lemma module_identifier_translation_witness :
  occurs_in ".py" "sub dir/mod-a" = false /\
  generate_safe_path myplug "sub dir/mod-a.py" = "plugins.myplug.sub_dir.mod_a" /\
  generate_safe_path myplug "sub dir/mod-a.py" =
    spec_module_identifier "myplug" "sub dir/mod-a.py".
Proof.
  split; [reflexivity|].
  destruct (proj1 (proj2 (module_identifier_translation myplug))
              "sub dir/mod-a" eq_refl) as [Hspec Hchars].
  split; [exact Hchars|exact Hspec].
Defined.

(** C8, as stated, fails on a path with [.py] inside: the code deletes
    the inner occurrence too, where the translation the specification
    words strips the suffix and turns the inner dot into an underscore. *)
Lemma inner_py_is_deleted :
  generate_safe_path myplug "tools.pyx/mod.py" = "plugins.myplug.toolsx.mod" /\
  spec_module_identifier "myplug" "tools.pyx/mod.py" = "plugins.myplug.tools_pyx.mod" /\
  generate_safe_path myplug "tools.pyx/mod.py" <>
    spec_module_identifier "myplug" "tools.pyx/mod.py".
Proof. repeat split; try reflexivity. vm_compute. discriminate. Qed.

(** The translation is not injective on all paths: hyphen, space and
    underscore share an identifier. *)
Lemma identifiers_collide :
  generate_safe_path myplug "mod-a.py" = generate_safe_path myplug "mod_a.py" /\
  generate_safe_path myplug "mod a.py" = generate_safe_path myplug "mod_a.py".
Proof. split; reflexivity. Qed.

Lemma get_requirements_lines_witness :
  get_requirements (with_requirements (unlines ["requests"; "numpy"])) =
    (Return ["requests"; "numpy"],
     with_requirements (unlines ["requests"; "numpy"])) /\
  get_requirements (with_requirements requirements_text) =
    (Return ["requests"; ""; "numpy"], with_requirements requirements_text) /\
  get_requirements (with_requirements ("requests" ++ LF ++ "numpy")) =
    (Return ["requests"; "numpy"],
     with_requirements ("requests" ++ LF ++ "numpy")).
Proof.
  split; [|split].
  - exact (proj1 (proj2 (proj2 (@get_requirements_lines _ mock_collaborators
                                   (with_requirements (unlines ["requests"; "numpy"]))))
                    ["requests"; "numpy"] ""
                    ltac:(intros l [<-|[<-|[]]]; reflexivity)
                    eq_refl eq_refl eq_refl)).
  - exact (proj1 (proj2 (proj2 (@get_requirements_lines _ mock_collaborators
                                   (with_requirements requirements_text)))
                    ["requests"; ""; "numpy"] ""
                    ltac:(intros l [<-|[<-|[<-|[]]]]; reflexivity)
                    eq_refl eq_refl eq_refl)).
  - exact (proj1 (proj2 (proj2 (@get_requirements_lines _ mock_collaborators
                                   (with_requirements ("requests" ++ LF ++ "numpy"))))
                    ["requests"] "numpy"
                    ltac:(intros l [<-|[]]; reflexivity)
                    eq_refl eq_refl eq_refl)).
Defined.

(** C9, as stated, fails on a file with an empty line: the empty line is
    returned, as an empty string. *)
Lemma empty_line_is_returned :
  fst (get_requirements (with_requirements requirements_text)) =
    Return ["requests"; ""; "numpy"] /\
  nonempty_lines requirements_text = ["requests"; "numpy"] /\
  fst (get_requirements (with_requirements requirements_text)) <>
    Return (nonempty_lines requirements_text).
Proof. repeat split; try reflexivity. vm_compute. discriminate. Qed.

(** * Further properties of the code *)

(** ** Load, unload and reload *)

Section HostExtras.
Context {world : Type} `{Collaborators world}.

(** X1 -- [load] on an enabled plugin whose k-th file (k = length pre + 1)
    the host refuses with an exception of a class [load] handles, the
    earlier files having loaded: [load] stops there and answers [False],
    the plugin is disabled, the host was called for the first k files in
    order and for nothing else (the k-1 loaded files are not unloaded). *)
Theorem load_handled_failure_disables (st : State world) pre f post w1 w2 e :
  enabled (self st) = true ->
  local_files (self st) = (pre ++ f :: post)%list ->
  host_run load_extension (map (generate_safe_path (self st)) pre)
    (outside (bot st)) = (w1, None) ->
  load_extension (generate_safe_path (self st) f) w1 = (w2, Some e) ->
  caught_by load_handlers e = true ->
  load st =
  (Return false,
   mkState (with_enabled false (self st))
     (mkBot (database (bot st)) w2
        (calls (bot st) ++
         map Load_extension (map (generate_safe_path (self st)) (pre ++ [f])))%list)).
Proof.
  intros He Hfiles Hpre Hf Hc.
  pose proof (load_first_failure st pre f post w1 w2 e He Hfiles Hpre Hf) as L.
  cbv zeta in L. rewrite Hc in L. exact L.
Qed.

(** X2 -- whenever [load] returns, what it returns is the plugin's
    [enabled] flag as [load] leaves it; and it returns [True] exactly when
    the plugin was enabled and the host raised for none of its local
    files. *)
Theorem load_answers_the_flag (st : State world) :
  (forall b, fst (load st) = Return b -> enabled (self (snd (load st))) = b) /\
  (fst (load st) = Return true <->
   enabled (self st) = true /\
   snd (host_run load_extension (module_paths (self st)) (outside (bot st))) = None).
Proof.
  rewrite load_spec.
  destruct (enabled (self st)) eqn:He.
  - destruct (host_run load_extension (module_paths (self st)) (outside (bot st)))
      as [w [e|]]; cbv zeta.
    + destruct (caught_by load_handlers e); cbn [fst snd]; split.
      * intros b Hb. injection Hb as <-. reflexivity.
      * split; [discriminate|intros [_ ?]; discriminate].
      * intros b Hb. discriminate.
      * split; [discriminate|intros [_ ?]; discriminate].
    + cbn [fst snd]. split.
      * intros b Hb. injection Hb as <-. exact He.
      * split; auto.
  - cbn [fst snd]. split.
    + intros b Hb. injection Hb as <-. exact He.
    + split; [discriminate|intros [? _]; discriminate].
Qed.

(** X3 -- [unload] and [reload] whose k-th host call (k = length pre + 1)
    raises an exception of a class they handle, the earlier calls having
    returned: they stop there and answer [False], the plugin is disabled
    (also by a failed [unload]), the host was called for the first k
    files in order, and what was done for the first k-1 is not undone. *)
Theorem unload_reload_failure_disables (st : State world) pre f post :
  local_files (self st) = (pre ++ f :: post)%list ->
  (forall w1 w2 e,
     host_run unload_extension (map (generate_safe_path (self st)) pre)
       (outside (bot st)) = (w1, None) ->
     unload_extension (generate_safe_path (self st) f) w1 = (w2, Some e) ->
     caught_by unload_handlers e = true ->
     unload st =
     (Return false,
      mkState (with_enabled false (self st))
        (mkBot (database (bot st)) w2
           (calls (bot st) ++
            map Unload_extension
              (map (generate_safe_path (self st)) (pre ++ [f])))%list))) /\
  (forall w1 w2 e,
     host_run reload_extension (map (generate_safe_path (self st)) pre)
       (outside (bot st)) = (w1, None) ->
     reload_extension (generate_safe_path (self st) f) w1 = (w2, Some e) ->
     caught_by load_handlers e = true ->
     reload st =
     (Return false,
      mkState (with_enabled false (self st))
        (mkBot (database (bot st)) w2
           (calls (bot st) ++
            map Reload_extension
              (map (generate_safe_path (self st)) (pre ++ [f])))%list))).
Proof.
  intros Hfiles. split; intros w1 w2 e Hpre Hf Hc.
  - rewrite unload_spec, (module_paths_app _ _ _ _ Hfiles).
    destruct (host_run_first_failure _ _ _
                (map (generate_safe_path (self st)) post) _ _ _ _ Hpre Hf)
      as [-> ->].
    cbv zeta. rewrite Hc, (map_app (generate_safe_path (self st)) pre [f]).
    reflexivity.
  - rewrite reload_spec, (module_paths_app _ _ _ _ Hfiles).
    destruct (host_run_first_failure _ _ _
                (map (generate_safe_path (self st)) post) _ _ _ _ Hpre Hf)
      as [-> ->].
    cbv zeta. rewrite Hc, (map_app (generate_safe_path (self st)) pre [f]).
    reflexivity.
Qed.

End HostExtras.

Lemma load_handled_failure_disables_witness :
  load second_has_no_setup =
  (Return false,
   mkState (demo_plugin false ["a.py"; "b.py"; "c.py"])
     (mkBot (demo_database true demo_rows)
        (Mock.mk ["plugins.demo.a"]
           [ ("plugins.demo.a", None); ("plugins.demo.b", Some NoEntryPointError);
             ("plugins.demo.c", None) ]
           (demo_disk []) demo_web)
        [Load_extension "plugins.demo.a"; Load_extension "plugins.demo.b"])).
Proof.
  exact (@load_handled_failure_disables _ mock_collaborators second_has_no_setup
           ["a.py"] "b.py" ["c.py"] _ _ NoEntryPointError
           eq_refl eq_refl
           ltac:(vm_compute; reflexivity) ltac:(vm_compute; reflexivity)
           eq_refl).
Defined.

Lemma load_answers_the_flag_witness :
  fst (load second_has_no_setup) = Return false /\
  enabled (self (snd (load second_has_no_setup))) = false.
Proof.
  assert (E : fst (load second_has_no_setup) = Return false)
    by (vm_compute; reflexivity).
  split; [exact E|].
  exact (proj1 (@load_answers_the_flag _ mock_collaborators second_has_no_setup)
           false E).
Defined.

Lemma unload_reload_failure_disables_witness :
  fst (unload first_loaded_only) = Return false /\
  enabled (self (snd (unload first_loaded_only))) = false /\
  calls (bot (snd (unload first_loaded_only))) =
    [Unload_extension "plugins.demo.a"; Unload_extension "plugins.demo.b"] /\
  fst (reload first_loaded_only) = Return false /\
  enabled (self (snd (reload first_loaded_only))) = false.
Proof.
  destruct (@unload_reload_failure_disables _ mock_collaborators first_loaded_only
              ["a.py"] "b.py" [] eq_refl) as [Hu Hr].
  rewrite (Hu (Mock.mk [] demo_modules (demo_disk []) demo_web)
              (Mock.mk [] demo_modules (demo_disk []) demo_web)
              ExtensionNotLoaded
              ltac:(vm_compute; reflexivity) ltac:(vm_compute; reflexivity)
              eq_refl).
  rewrite (Hr (outside (bot first_loaded_only)) (outside (bot first_loaded_only))
              ExtensionNotLoaded
              ltac:(vm_compute; reflexivity) ltac:(vm_compute; reflexivity)
              eq_refl).
  repeat split.
Defined.

(** ** The dictionary of files *)

Lemma dict_get_set f k v (d : dict) :
  dict_get f (dict_set k v d) = if String.eqb f k then Some v else dict_get f d.
Proof.
  induction d as [|[k' v'] d IH]; cbn.
  - reflexivity.
  - destruct (String.eqb k k') eqn:E; cbn.
    + apply String.eqb_eq in E. subst k'.
      destruct (String.eqb f k); reflexivity.
    + destruct (String.eqb f k') eqn:E'.
      * apply String.eqb_eq in E'. subst k'.
        rewrite String.eqb_sym in E. now rewrite E.
      * exact IH.
Qed.

(** X5 -- [_get_files] keeps one entry per file name: its keys are the
    files of the rows of this plugin (rows of other plugins are left
    out), no key occurs twice, and the URL under a file is that of the
    last row for it. *)
Theorem get_files_last_row_wins (plugin_id : Z) (db : Database) :
  NoDup (keys (_get_files plugin_id db)) /\
  (forall f,
     In f (keys (_get_files plugin_id db)) <->
     exists row, In row (plugin_files db) /\
                 PluginFiles.plugin_id row = plugin_id /\
                 PluginFiles.file row = f) /\
  (forall f,
     dict_get f (_get_files plugin_id db) =
     last_url plugin_id f (plugin_files db)).
Proof.
  split; [apply get_files_NoDup|]. split.
  - intros f. unfold _get_files.
    assert (G : forall rows d,
              In f (keys (fold_left
                (fun d row => dict_set (PluginFiles.file row)
                                (PluginFiles.file_url row) d) rows d)) <->
              In f (keys d) \/ exists row, In row rows /\ PluginFiles.file row = f).
    { induction rows as [|row rows IH]; intros d; cbn [fold_left].
      - split; [auto|]. intros [?|[row [[] _]]]. assumption.
      - rewrite IH, dict_set_keys_in. split.
        + intros [[->|Hin]|[row' [Hin Hf]]].
          * right. exists row. split; [now left|reflexivity].
          * now left.
          * right. exists row'. split; [now right|assumption].
        + intros [Hin|[row' [[<-|Hin] Hf]]].
          * left. now right.
          * left. left. now symmetry.
          * right. now exists row'. }
    rewrite G. cbn [keys map]. split.
    + intros [[]|[row [Hin Hf]]]. apply filter_In in Hin as [Hin Hid].
      apply Z.eqb_eq in Hid. now exists row.
    + intros [row (Hin & Hid & Hf)]. right. exists row. split; [|assumption].
      apply filter_In. split; [assumption|now apply Z.eqb_eq].
  - intros f. unfold _get_files, last_url.
    assert (G : forall rows d,
              dict_get f (fold_left
                (fun d row => dict_set (PluginFiles.file row)
                                (PluginFiles.file_url row) d)
                (filter (fun row => Z.eqb (PluginFiles.plugin_id row) plugin_id) rows)
                d) =
              fold_left
                (fun acc row =>
                   if Z.eqb (PluginFiles.plugin_id row) plugin_id
                      && String.eqb f (PluginFiles.file row)
                   then Some (PluginFiles.file_url row)
                   else acc)
                rows (dict_get f d)).
    { induction rows as [|row rows IH]; intros d; cbn [filter fold_left].
      - reflexivity.
      - destruct (Z.eqb (PluginFiles.plugin_id row) plugin_id); cbn [andb fold_left].
        + now rewrite IH, dict_get_set.
        + apply IH. }
    apply (G (plugin_files db) []).
Qed.

Section ResolutionExtras.
Context {world : Type} `{Collaborators world}.

Lemma forallb_filter_negb {A : Type} (g : A -> bool) (l : list A) :
  forallb g l = true <-> filter (fun x => negb (g x)) l = [].
Proof.
  induction l as [|x l IH]; cbn; [tauto|].
  destruct (g x); cbn; [exact IH|]. split; discriminate.
Qed.

Lemma filter_split_length {A : Type} (g : A -> bool) (l : list A) :
  (List.length (filter g l) + List.length (filter (fun x => negb (g x)) l))%nat =
  List.length l.
Proof.
  induction l as [|x l IH]; cbn; [reflexivity|].
  destruct (g x); cbn; lia.
Qed.

(** X6 -- [_exists_localy] answers [local] = [True] exactly when it found
    no file missing; every entry of [files] goes to one of the two lists
    (their lengths add up to the number of entries), to [local_files] if
    its path exists on the disk and, with its URL, to [non_local_files] if
    not; a plugin without files is [local]. *)
Theorem exists_localy_sorts_files (p : Plugin) (w : world) :
  (fst (fst (_exists_localy p w)) = true <-> snd (fst (_exists_localy p w)) = []) /\
  (List.length (snd (_exists_localy p w)) +
   List.length (snd (fst (_exists_localy p w))))%nat = List.length (files p) /\
  (forall f,
     In f (snd (_exists_localy p w)) <->
     In f (keys (files p)) /\ os_path_exists (plugin_path p f) w = true) /\
  (forall f link,
     In (f, link) (snd (fst (_exists_localy p w))) <->
     In (f, link) (files p) /\ os_path_exists (plugin_path p f) w = false) /\
  (files p = [] -> _exists_localy p w = (true, [], [])).
Proof.
  rewrite exists_localy_spec. cbn [fst snd]. split; [|split; [|split; [|split]]].
  - apply forallb_filter_negb.
  - rewrite length_map. apply filter_split_length.
  - intros f. rewrite in_map_iff. split.
    + intros [e [<- He]]. apply filter_In in He as [He Hd].
      split; [now apply in_map|exact Hd].
    + intros [Hin Hd]. apply in_map_iff in Hin as [e [<- He]].
      exists e. split; [reflexivity|]. apply filter_In. auto.
  - intros f link. rewrite filter_In. unfold on_disk. cbn [fst].
    rewrite negb_true_iff. tauto.
  - intros ->. reflexivity.
Qed.

End ResolutionExtras.

(** ** Construction and download *)

Section ConstructionExtras.
Context {world : Type} `{Collaborators world}.

Lemma ensure_folder_run (st : State world) :
  ensure_folder st =
  if os_path_exists (plugin_folder (self st)) (outside (bot st))
  then (Return tt, st)
  else (match snd (os_mkdir (plugin_folder (self st)) (outside (bot st))) with
        | None => Return tt
        | Some e => Raise e
        end,
        after_calls st (fst (os_mkdir (plugin_folder (self st)) (outside (bot st))))
          [Os_mkdir (plugin_folder (self st))]).
Proof.
  unfold ensure_folder, bind, get_self, ask.
  destruct (os_path_exists (plugin_folder (self st)) (outside (bot st)));
    cbn [negb]; [reflexivity|apply call_run].
Qed.

Lemma resolved_enabled_no_download db (w : world) p :
  enabled p = true -> wants_download (resolved db w p) = false.
Proof.
  intros He.
  destruct (resolved_lists db w p) as (_ & _ & _ & _ & Hen & _).
  cbv zeta in Hen. unfold wants_download.
  destruct (empty (resolved db w p)).
  - cbn. now rewrite andb_false_r.
  - rewrite Hen, He. cbn. now rewrite andb_false_r.
Qed.

Lemma resolved_lists_self db (w : world) p :
  let q := resolved db w p in
  local_files q = map fst (filter (on_disk q w) (files q)) /\
  non_local_files q = filter (fun e => negb (on_disk q w e)) (files q) /\
  enabled q = (if empty q then false else enabled p).
Proof.
  destruct (resolved_lists db w p) as (_ & _ & Hn & Hl & Hen & Hf & _).
  cbv zeta in *. rewrite Hn, Hl, Hen.
  assert (E : forall e, on_disk (resolved db w p) w e = on_disk p w e).
  { intros e. unfold on_disk, plugin_path. now rewrite Hf. }
  repeat split.
  - f_equal. apply filter_ext. intros e. now rewrite E.
  - apply filter_ext. intros e. now rewrite E.
Qed.

(** X7 -- the constructor never downloads for a record that is enabled:
    the only call it can make that changes anything outside is the
    [os.mkdir] of a missing plugin folder (no HTTP request, no file
    written); the plugin it returns has in [local_files] the declared
    files found on the disk, in [non_local_files] the others, and is
    enabled unless it has no files. *)
Theorem enabled_record_is_not_downloaded (plugin_data : PluginData.t) (b : Bot world) :
  PluginData.enabled plugin_data = true ->
  let folder := "plugins/" ++ PluginData.folder_name plugin_data in
  calls (snd (__init__ plugin_data b)) =
    (calls b ++ if os_path_exists folder (outside b) then [] else [Os_mkdir folder])%list /\
  (forall p b',
     __init__ plugin_data b = (Return p, b') ->
     local_files p = map fst (filter (on_disk p (outside b')) (files p)) /\
     non_local_files p =
       filter (fun e => negb (on_disk p (outside b') e)) (files p) /\
     enabled p = negb (empty p)).
Proof.
  intros He folder. rewrite init_run, ensure_folder_run.
  cbn [self bot]. change (plugin_folder (fresh plugin_data)) with folder.
  destruct (os_path_exists folder (outside b)) eqn:Hex.
  - cbv zeta. cbn [self bot].
    rewrite (resolved_enabled_no_download _ _ (fresh plugin_data) He). cbn [snd]. split.
    + now rewrite app_nil_r.
    + intros p b' Heq. inversion Heq; subst p b'.
      destruct (resolved_lists_self (database b) (outside b) (fresh plugin_data))
        as (Hl & Hn & Hen).
      cbv zeta in Hn, Hl, Hen. cbn [fresh enabled] in Hen. rewrite He in Hen.
      split; [exact Hl|]. split; [exact Hn|]. rewrite Hen.
      now destruct (empty (resolved (database b) (outside b) (fresh plugin_data))).
  - destruct (os_mkdir folder (outside b)) as [w [e|]]; cbn [fst snd].
    + split; [reflexivity|]. intros p b' Heq. discriminate.
    + cbv zeta. cbn [self bot after_calls database outside].
      rewrite (resolved_enabled_no_download _ _ (fresh plugin_data) He). cbn [snd calls]. split.
      * reflexivity.
      * intros p b' Heq. inversion Heq; subst p b'. cbn [outside].
        destruct (resolved_lists_self (database b) w (fresh plugin_data))
          as (Hl & Hn & Hen).
        cbv zeta in Hn, Hl, Hen. cbn [fresh enabled] in Hen. rewrite He in Hen.
        split; [exact Hl|]. split; [exact Hn|]. rewrite Hen.
        now destruct (empty (resolved (database b) w (fresh plugin_data))).
Qed.

(** X8 -- when the plugin folder is missing and [os.mkdir] raises, the
    constructor raises that exception: no plugin is returned, the
    database is not read into an object, and the failed [os.mkdir] is the
    only call made. *)
Theorem mkdir_failure_aborts_construction
    (plugin_data : PluginData.t) (b : Bot world) w e :
  let folder := "plugins/" ++ PluginData.folder_name plugin_data in
  os_path_exists folder (outside b) = false ->
  os_mkdir folder (outside b) = (w, Some e) ->
  __init__ plugin_data b =
  (Raise e, mkBot (database b) w (calls b ++ [Os_mkdir folder])%list).
Proof.
  intros folder Hex Hmk. rewrite init_run, ensure_folder_run.
  cbn [self bot]. change (plugin_folder (fresh plugin_data)) with folder.
  now rewrite Hex, Hmk.
Qed.

(** X9 -- on every constructed plugin, [local] is true exactly when
    [non_local_files] is empty, and then [local_files] is the list of the
    declared files, in the order of [files]. *)
Theorem constructed_local_flag (plugin_data : PluginData.t) (b b' : Bot world) p :
  __init__ plugin_data b = (Return p, b') ->
  (local p = true <-> non_local_files p = []) /\
  (local p = true -> local_files p = keys (files p)).
Proof.
  intros Hinit.
  destruct (init_layout _ _ _ _ Hinit) as (w & fetched & missing & Hm & Hp & _).
  cbv zeta in Hm, Hp.
  destruct (resolved_lists (database b) w (fresh plugin_data))
    as (_ & Hloc & Hn & Hl & _).
  cbv zeta in Hloc, Hn, Hl.
  set (q := resolved (database b) w (fresh plugin_data)) in *.
  assert (Hiff : local q = true <-> non_local_files q = []).
  { rewrite Hloc, Hn. apply forallb_filter_negb. }
  subst p. cbn [with_local_files local non_local_files local_files files].
  split; [exact Hiff|].
  intros Htrue. pose proof (proj1 Hiff Htrue) as Hnil.
  rewrite Hnil in Hm. cbn [map] in Hm. symmetry in Hm.
  apply app_eq_nil in Hm as [-> _]. rewrite app_nil_r, Hl.
  unfold keys. f_equal. apply filter_all.
  rewrite Hloc in Htrue. intros e He.
  exact (proj1 (forallb_forall _ _) Htrue e He).
Qed.

(** A loop over entries whose fetch, folders and write all go through. *)
Lemma for_each_fetch_all s entries (st : State world) w evs :
  fetch_all s entries (outside (bot st)) = Some (w, evs) ->
  for_each entries (download_one s) st =
  (Return tt,
   mkState (with_local_files (local_files (self st) ++ map fst entries) (self st))
     (mkBot (database (bot st)) w (calls (bot st) ++ evs)%list)).
Proof.
  revert st evs. induction entries as [|[file link] entries IH]; intros st evs.
  - cbn [fetch_all for_each map]. intros Heq. injection Heq as <- <-.
    rewrite !app_nil_r, with_local_files_same. unfold ret. now rewrite state_eta.
  - cbn [fetch_all for_each]. unfold bind. rewrite download_one_run. cbv zeta.
    destruct (requests_get link (outside (bot st))) as [w1 [content|e]];
      [|discriminate].
    destruct (os_makedirs (dirname (plugin_path s file)) w1) as [w2 [e|]];
      [discriminate|].
    destruct (write_binary (plugin_path s file) content w2) as [w3 [e|]];
      [discriminate|].
    destruct (fetch_all s entries w3) as [[w' evs']|] eqn:Hrest; [|discriminate].
    intros Heq. injection Heq as <- <-.
    match goal with
    | |- context [for_each entries (download_one s) ?st'] =>
        rewrite (IH st' evs' Hrest)
    end.
    cbn [self bot after_calls database calls local_files with_local_files map fst].
    now rewrite <- !app_assoc.
Qed.

(** X10 -- a download batch in which no call raises: [_download] returns,
    every path of [non_local_files] is appended to [local_files] in
    order, each file having been written with the content its URL
    returned; [non_local_files] and [local] are left as they were (so
    [local] stays false). *)
Theorem download_all_succeed (st : State world) w evs :
  fetch_all (self st) (non_local_files (self st)) (outside (bot st)) = Some (w, evs) ->
  _download st =
  (Return tt,
   mkState
     (with_local_files
        (local_files (self st) ++ map fst (non_local_files (self st))) (self st))
     (mkBot (database (bot st)) w (calls (bot st) ++ evs)%list)) /\
  non_local_files (self (snd (_download st))) = non_local_files (self st) /\
  local (self (snd (_download st))) = local (self st).
Proof.
  intros Hall. rewrite download_run, (for_each_fetch_all _ _ _ _ _ Hall).
  cbn [fst snd self]. repeat split.
Qed.

(** X11 -- a batch whose k-th fetch raises a builtin [ConnectionError] or
    a subclass of it, the k-1 entries before it having been downloaded:
    [_download] swallows the exception and returns, with the paths of
    those k-1 entries appended to [local_files] and nothing done for the
    later entries. *)
Theorem download_builtin_connection_error_is_swallowed
    (st st1 : State world) pre file link post w2 e :
  non_local_files (self st) = (pre ++ (file, link) :: post)%list ->
  for_each pre (download_one (self st)) st = (Return tt, st1) ->
  requests_get link (outside (bot st1)) = (w2, Raise e) ->
  issubclass e ConnectionError = true ->
  _download st = (Return tt, after_calls st1 w2 [Requests_get link]) /\
  local_files (self (snd (_download st))) =
    (local_files (self st) ++ map fst pre)%list.
Proof.
  intros Hn Hpre Hget Hsub.
  destruct (download_fetch_failure st st1 pre file link post w2 e Hn Hpre Hget)
    as [Hrun Hl].
  assert (Hc : caught_by [ConnectionError] e = true).
  { unfold caught_by. cbn [existsb]. now rewrite Hsub. }
  rewrite Hc in Hrun. auto.
Qed.

End ConstructionExtras.

(** ** The module identifier, again *)

Lemma safe_char_never_unsafe (x : ascii) :
  Ascii.eqb (safe_char x) " " = false /\
  Ascii.eqb (safe_char x) "-" = false /\
  Ascii.eqb (safe_char x) "/" = false.
Proof.
  destruct x as [[] [] [] [] [] [] [] []]; repeat split; reflexivity.
Qed.

Lemma has_char_map_chars f c s :
  (forall x, Ascii.eqb (f x) c = false) -> has_char c (map_chars f s) = false.
Proof.
  intros Hf. induction s as [|x s IH]; cbn; [reflexivity|].
  now rewrite Hf, IH.
Qed.

Lemma length_map_chars f s : String.length (map_chars f s) = String.length s.
Proof. induction s as [|c s IH]; cbn; [reflexivity|now rewrite IH]. Qed.

Lemma length_replace_from_delete old skip s :
  String.length (replace_from old "" skip s) <= String.length s.
Proof.
  revert skip. induction s as [|c s IH]; intros skip; cbn [replace_from].
  - apply Nat.le_refl.
  - destruct skip as [|k].
    + destruct (startswith old (String c s)); cbn [append String.length].
      * etransitivity; [apply IH|]. apply Nat.le_succ_diag_r.
      * apply le_n_S, IH.
    + cbn [String.length]. etransitivity; [apply IH|]. apply Nat.le_succ_diag_r.
Qed.

(** X12 -- whatever the path, the identifier [generate_safe_path] builds
    is [plugins.<folder_name>.] followed by a part that holds no space, no
    hyphen and no slash and is not longer than the path. *)
Theorem generated_identifier_alphabet (p : Plugin) (path : string) :
  exists t,
    generate_safe_path p path = "plugins." ++ folder_name p ++ "." ++ t /\
    has_char " " t = false /\ has_char "-" t = false /\ has_char "/" t = false /\
    String.length t <= String.length path.
Proof.
  exists (map_chars safe_char (replace ".py" "" path)).
  split; [apply generate_safe_path_chars|].
  split; [apply has_char_map_chars; intros x; apply safe_char_never_unsafe|].
  split; [apply has_char_map_chars; intros x; apply safe_char_never_unsafe|].
  split; [apply has_char_map_chars; intros x; apply safe_char_never_unsafe|].
  rewrite length_map_chars. apply length_replace_from_delete.
Qed.

(** ** The extensions of [main.py] *)

Lemma endswith_append_py stem : endswith ".py" (stem ++ ".py") = true.
Proof.
  induction stem as [|c stem IH]; [reflexivity|].
  change (String c stem ++ ".py") with (String c (stem ++ ".py")).
  cbn [endswith]. rewrite IH. apply orb_true_r.
Qed.

Lemma length_filter_le {A : Type} (g : A -> bool) (l : list A) :
  List.length (filter g l) <= List.length l.
Proof.
  induction l as [|x l IH]; cbn; [apply Nat.le_refl|].
  destruct (g x); cbn; lia.
Qed.

(** X13 -- [default_extensions] holds one name per listed file that ends
    in [.py], in the order of the listing, and nothing for the other
    files; the name of [stem.py] is [extensions.stem] when [stem] holds no
    [.py]; and each name is [extensions.] followed by the name the
    [reload-all] command uses for the same file. *)
Theorem default_extensions_names (listing : list string) :
  default_extensions listing =
    map (fun n => "extensions." ++ n) (all_extensions listing) /\
  (forall n,
     In n (default_extensions listing) <->
     exists file, In file listing /\ endswith ".py" file = true /\
                  n = "extensions." ++ replace ".py" "" file) /\
  (forall stem,
     occurs_in ".py" stem = false ->
     In (stem ++ ".py") listing ->
     In ("extensions." ++ stem) (default_extensions listing)) /\
  List.length (default_extensions listing) <= List.length listing.
Proof.
  unfold default_extensions, all_extensions. split; [|split; [|split]].
  - now rewrite map_map.
  - intros n. rewrite in_map_iff. split.
    + intros [file [<- Hin]]. apply filter_In in Hin as [Hin Hpy].
      now exists file.
    + intros [file (Hin & Hpy & ->)]. exists file. split; [reflexivity|].
      now apply filter_In.
  - intros stem Hocc Hin. apply in_map_iff. exists (stem ++ ".py"). split.
    + now rewrite replace_py_suffix.
    + apply filter_In. split; [exact Hin|apply endswith_append_py].
  - rewrite length_map. apply length_filter_le.
Qed.

Lemma caught_by_two a b e :
  caught_by [a; b] e = caught_by [a] e || caught_by [b] e.
Proof. unfold caught_by. cbn [existsb]. now rewrite !orb_false_r. Qed.

(** The three ways a command ends: the host raised a class it handles,
    the host raised another class, the host returned. *)
Ltac command_handled e Hrg :=
  split; [reflexivity|]; split;
  [ intros em Hem; injection Hem as <-; cbn [color]; split;
    [ split; [intros E; now destruct (Hrg E)|discriminate]
    | split; [intros _; now exists e|reflexivity] ]
  | intros e'; split; [discriminate|];
    intros [He' Hc']; injection He' as <-; revert Hc';
    rewrite ?caught_by_two;
    repeat match goal with
           | C : caught_by _ e = _ |- _ => rewrite C; clear C
           end;
    cbn; discriminate ].

Ltac command_escapes e :=
  split; [reflexivity|]; split;
  [ intros em Hem; discriminate
  | intros e'; split;
    [ intros He'; injection He' as <-; split; [reflexivity|];
      rewrite ?caught_by_two;
      repeat match goal with
             | C : caught_by _ e = _ |- _ => rewrite C; clear C
             end;
      reflexivity
    | intros [He' _]; now injection He' as <- ] ].

Ltac command_returned Hgr :=
  split; [reflexivity|]; split;
  [ intros em Hem; injection Hem as <-; cbn [color]; split;
    [ split; reflexivity
    | split; [intros E; now destruct (Hgr E)|intros [e' He']; discriminate] ]
  | intros e'; split; [discriminate|intros [He' _]; discriminate] ].

Section CommandExtras.
Context {world : Type} `{Collaborators world}.

(** X14 -- the [reload], [load] and [unload] commands call the host once,
    answer with a green embed exactly when the call returned, with a red
    one when it raised a class the command handles, and let every other
    exception through before anything is sent: [reload] handles
    [ExtensionNotFound] only (so reloading an extension that is not loaded
    raises), [load] handles [ExtensionAlreadyLoaded] and
    [ExtensionNotFound], [unload] handles [ExtensionNotFound] and
    [ExtensionNotLoaded]. *)
Theorem owner_commands_report_host_errors (icon extension : string) (w : world) :
  let describes (cmd : outcome Embed * world) (host : world * option exception)
                (classes : list exception) :=
    snd cmd = fst host /\
    (forall em, fst cmd = Return em ->
                (color em = green <-> snd host = None) /\
                (color em = red <-> exists e, snd host = Some e)) /\
    (forall e, fst cmd = Raise e <->
               snd host = Some e /\ caught_by classes e = false) in
  describes (command_reload_extension icon extension w)
            (reload_extension extension w) [ExtensionNotFound] /\
  describes (command_load_extension icon extension w)
            (load_extension extension w)
            [ExtensionAlreadyLoaded; ExtensionNotFound] /\
  describes (command_unload_extension icon extension w)
            (unload_extension extension w)
            [ExtensionNotFound; ExtensionNotLoaded].
Proof.
  cbv zeta.
  assert (Hgr : green <> red) by discriminate.
  assert (Hrg : red <> green) by discriminate.
  split; [|split].
  - unfold command_reload_extension.
    destruct (reload_extension extension w) as [w' [e|]]; cbn [fst snd].
    + destruct (caught_by [ExtensionNotFound] e) eqn:C; cbn [fst snd].
      * command_handled e Hrg.
      * command_escapes e.
    + command_returned Hgr.
  - unfold command_load_extension.
    destruct (load_extension extension w) as [w' [e|]]; cbn [fst snd].
    + destruct (caught_by [ExtensionAlreadyLoaded] e) eqn:C1;
        [|destruct (caught_by [ExtensionNotFound] e) eqn:C2];
        cbn [fst snd].
      * command_handled e Hrg.
      * command_handled e Hrg.
      * command_escapes e.
    + command_returned Hgr.
  - unfold command_unload_extension.
    destruct (unload_extension extension w) as [w' [e|]]; cbn [fst snd].
    + destruct (caught_by [ExtensionNotFound] e) eqn:C1;
        [|destruct (caught_by [ExtensionNotLoaded] e) eqn:C2];
        cbn [fst snd].
      * command_handled e Hrg.
      * command_handled e Hrg.
      * command_escapes e.
    + command_returned Hgr.
Qed.

End CommandExtras.

Section ReloadAll.
Context {world : Type} `{Collaborators world}.

Lemma reload_all_loop_sweep icon exts failed (w : world) :
  snd (reload_all_loop icon exts failed w) =
    fst (host_sweep reload_extension [ExtensionNotFound] exts w) /\
  (forall e,
     fst (reload_all_loop icon exts failed w) = Raise e <->
     snd (host_sweep reload_extension [ExtensionNotFound] exts w) = Some e).
Proof.
  revert failed w. induction exts as [|x exts IH]; intros failed w;
    cbn [reload_all_loop host_sweep].
  - split; [reflexivity|]. intros e. split; discriminate.
  - destruct (reload_extension x w) as [w' [e|]]; [|apply IH].
    destruct (caught_by [ExtensionNotFound] e); [apply IH|].
    cbn [fst snd]. split; [reflexivity|].
    intros e'. split; intros E; injection E as <-; reflexivity.
Qed.

Lemma reload_all_loop_failed icon exts x (w : world) :
  color x = red ->
  match fst (reload_all_loop icon exts (Some x) w) with
  | Return (Some y) => color y = red
  | Return None => False
  | Raise _ => True
  end.
Proof.
  revert x w. induction exts as [|n exts IH]; intros x w Hx;
    cbn [reload_all_loop].
  - exact Hx.
  - destruct (reload_extension n w) as [w' [e|]]; [|now apply IH].
    destruct (caught_by [ExtensionNotFound] e); [now apply IH|exact I].
Qed.

Lemma reload_all_loop_ok icon exts (w : world) :
  match fst (reload_all_loop icon exts None w) with
  | Return None => snd (host_run reload_extension exts w) = None
  | Return (Some y) =>
      color y = red /\ snd (host_run reload_extension exts w) <> None
  | Raise _ => snd (host_run reload_extension exts w) <> None
  end.
Proof.
  revert w. induction exts as [|n exts IH]; intros w;
    cbn [reload_all_loop host_run].
  - reflexivity.
  - destruct (reload_extension n w) as [w' [e|]]; [|apply IH].
    destruct (caught_by [ExtensionNotFound] e).
    + pose proof (reload_all_loop_failed icon exts
                    (mkEmbed red (n ++ " not found") "Reload All" icon) w' eq_refl)
        as Hf.
      destruct (fst (reload_all_loop icon exts
                       (Some (mkEmbed red (n ++ " not found") "Reload All" icon)) w'))
        as [[y|]|e']; cbn [snd]; [split; [exact Hf|discriminate]|contradiction|discriminate].
    + cbn [fst snd]. discriminate.
Qed.

Lemma reload_all_loop_returns icon exts failed (w w' : world) :
  host_run reload_extension exts w = (w', None) ->
  reload_all_loop icon exts failed w = (Return failed, w').
Proof.
  revert w. induction exts as [|n exts IH]; intros w; cbn [reload_all_loop host_run].
  - intros E. now injection E as <-.
  - destruct (reload_extension n w) as [w1 [e|]]; [discriminate|apply IH].
Qed.

Lemma reload_all_loop_prefix icon pre rest failed (w w1 : world) :
  host_sweep reload_extension [ExtensionNotFound] pre w = (w1, None) ->
  exists failed',
    reload_all_loop icon (pre ++ rest) failed w =
    reload_all_loop icon rest failed' w1.
Proof.
  revert failed w. induction pre as [|n pre IH]; intros failed w;
    cbn [reload_all_loop host_sweep app].
  - intros E. injection E as <-. now exists failed.
  - destruct (reload_extension n w) as [w' [e|]]; [|apply IH].
    destruct (caught_by [ExtensionNotFound] e); [apply IH|discriminate].
Qed.

(** X15 -- the [reload-all] command asks the host to reload every listed
    [.py] file, by its name without the [extensions.] prefix, and goes on
    after an extension that is not found.  It raises exactly when a
    reload raises another exception (nothing is then sent); otherwise it
    sends a green embed exactly when every reload returned, and a red
    one, naming only the last extension not found, when some did not. *)
Theorem reload_all_reports (icon : string) (listing : list string) (w : world) :
  let cmd := command_reload_all_extensions icon listing w in
  let names := all_extensions listing in
  let sweep := host_sweep reload_extension [ExtensionNotFound] names w in
  snd cmd = fst sweep /\
  (forall e, fst cmd = Raise e <-> snd sweep = Some e) /\
  (forall em,
     fst cmd = Return em ->
     (color em = green <-> snd (host_run reload_extension names w) = None) /\
     (color em = green \/ color em = red)) /\
  (forall pre x post w1 w2 w3 e,
     names = (pre ++ x :: post)%list ->
     host_sweep reload_extension [ExtensionNotFound] pre w = (w1, None) ->
     reload_extension x w1 = (w2, Some e) ->
     caught_by [ExtensionNotFound] e = true ->
     host_run reload_extension post w2 = (w3, None) ->
     cmd = (Return (mkEmbed red (x ++ " not found") "Reload All" icon), w3)).
Proof.
  cbv zeta. unfold command_reload_all_extensions.
  destruct (reload_all_loop_sweep icon (all_extensions listing) None w)
    as [Hw Hraise].
  pose proof (reload_all_loop_ok icon (all_extensions listing) w) as Hok.
  assert (Hgr : green <> red) by discriminate.
  assert (Hrg : red <> green) by discriminate.
  split; [|split; [|split]].
  - rewrite <- Hw.
    destruct (reload_all_loop icon (all_extensions listing) None w)
      as [[[y|]|e] w']; reflexivity.
  - intros e. rewrite <- Hraise.
    destruct (reload_all_loop icon (all_extensions listing) None w)
      as [[[y|]|e'] w']; cbn [fst]; split; intros E;
      try discriminate; injection E as <-; reflexivity.
  - intros em.
    destruct (reload_all_loop icon (all_extensions listing) None w)
      as [[[y|]|e'] w']; cbn [fst] in *; intros E; try discriminate;
      injection E as <-.
    + destruct Hok as [Hy Hne]. rewrite Hy. split; [|now right].
      split; [intros E; now destruct (Hrg E)|intros E; now destruct (Hne E)].
    + cbn [color]. split; [|now left]. split; auto.
  - intros pre x post w1 w2 w3 e Hnames Hpre Hx Hc Hpost.
    rewrite Hnames.
    destruct (reload_all_loop_prefix icon pre (x :: post) None w w1 Hpre)
      as [failed' ->].
    cbn [reload_all_loop]. rewrite Hx, Hc.
    now rewrite (reload_all_loop_returns _ _ _ _ _ Hpost).
Qed.

End ReloadAll.

(** ** The further properties on concrete plugins *)

Lemma enabled_record_is_not_downloaded_witness :
  PluginData.enabled (demo_record true) = true /\
  calls (snd (__init__ (demo_record true) enabled_one_local)) = [] /\
  (forall p b',
     __init__ (demo_record true) enabled_one_local = (Return p, b') ->
     enabled p = negb (empty p)).
Proof.
  split; [reflexivity|].
  destruct (@enabled_record_is_not_downloaded _ mock_collaborators
              (demo_record true) enabled_one_local eq_refl) as [Hcalls Hp].
  split; [exact Hcalls|].
  intros p b' E. now destruct (Hp p b' E) as (_ & _ & He).
Defined.

Lemma mkdir_failure_aborts_construction_witness :
  __init__ (demo_record true) no_plugins_folder =
  (Raise FileNotFoundError,
   mkBot (demo_database true demo_rows) (Mock.mk [] demo_modules [] demo_web)
     [Os_mkdir "plugins/demo"]).
Proof.
  exact (@mkdir_failure_aborts_construction _ mock_collaborators
           (demo_record true) no_plugins_folder
           (Mock.mk [] demo_modules [] demo_web) FileNotFoundError
           eq_refl eq_refl).
Defined.

Lemma constructed_local_flag_witness :
  let b := demo_bot true (firstn 1 demo_rows) [] [("a.py", "def setup(bot): pass")] in
  let p := mkPlugin "1.0" "demo" "a demonstration plugin" "nobody" "demo" true 1
             [("a.py", "http://files.example/a.py")] false true [] ["a.py"] in
  __init__ (demo_record true) b = (Return p, b) /\
  (local p = true <-> non_local_files p = []) /\
  local_files p = keys (files p).
Proof.
  cbv zeta.
  assert (E : __init__ (demo_record true)
                (demo_bot true (firstn 1 demo_rows) []
                   [("a.py", "def setup(bot): pass")]) =
              (Return
                 (mkPlugin "1.0" "demo" "a demonstration plugin" "nobody" "demo"
                    true 1 [("a.py", "http://files.example/a.py")] false true []
                    ["a.py"]),
               demo_bot true (firstn 1 demo_rows) []
                 [("a.py", "def setup(bot): pass")]))
    by (vm_compute; reflexivity).
  split; [exact E|].
  destruct (@constructed_local_flag _ mock_collaborators _ _ _ _ E) as [Hiff Hkeys].
  split; [exact Hiff|]. apply Hkeys. reflexivity.
Defined.

Lemma download_all_succeed_witness :
  fst (_download two_to_download) = Return tt /\
  local_files (self (snd (_download two_to_download))) = ["a.py"; "lib/c.py"] /\
  local (self (snd (_download two_to_download))) = false /\
  Mock.read_text "plugins/demo/lib/c.py"
    (outside (bot (snd (_download two_to_download)))) =
    Return "def setup(bot): pass".
Proof.
  destruct (@download_all_succeed _ mock_collaborators two_to_download
              (outside (bot (snd (@_download _ mock_collaborators two_to_download))))
              (calls (bot (snd (@_download _ mock_collaborators two_to_download))))
              ltac:(vm_compute; reflexivity)) as (Hrun & _ & Hlocal).
  split; [now rewrite Hrun|]. split; [now rewrite Hrun|].
  split; [rewrite Hlocal; reflexivity|].
  vm_compute. reflexivity.
Defined.

Lemma download_builtin_connection_error_is_swallowed_witness :
  fst (@_download _ refusing_collaborators about_to_download) = Return tt /\
  local_files (self (snd (@_download _ refusing_collaborators about_to_download))) =
    ["a.py"].
Proof.
  destruct (@download_builtin_connection_error_is_swallowed _ refusing_collaborators
              about_to_download
              (snd (@for_each Mock.world _
                      [("a.py", "http://files.example/a.py")]
                      (@download_one _ refusing_collaborators (self about_to_download))
                      about_to_download))
              [("a.py", "http://files.example/a.py")]
              "b.py" "http://down.example/b.py"
              [("c.py", "http://files.example/c.py")]
              (outside (bot (snd (@for_each Mock.world _
                      [("a.py", "http://files.example/a.py")]
                      (@download_one _ refusing_collaborators (self about_to_download))
                      about_to_download))))
              ConnectionRefusedError
              ltac:(vm_compute; reflexivity)
              ltac:(vm_compute; reflexivity)
              ltac:(vm_compute; reflexivity)
              eq_refl)
    as (Hrun & Hl).
  split; [now rewrite Hrun|exact Hl].
Defined.

Lemma reload_all_reports_witness :
  let w := Mock.mk ["extensions.fun"]
             [("extensions.fun", None); ("fun", None)] [] [] in
  fst (@command_reload_all_extensions _ mock_collaborators "icon"
         ["fun.py"; "README.md"] w) = Raise ExtensionNotLoaded.
Proof.
  cbv zeta.
  apply (proj1 (proj2 (@reload_all_reports _ mock_collaborators "icon"
                         ["fun.py"; "README.md"]
                         (Mock.mk ["extensions.fun"]
                            [("extensions.fun", None); ("fun", None)] [] [])))).
  vm_compute. reflexivity.
Defined.
